(** * qca-dataset-submission: indexing and submission pipelines

    Shallow embedding of

    - [6-25-19-smirnoff99Frost-coverage/create_optimization_dataset.py]
      (the optimization pipeline: [read_molecules] and
      [create_optimization_dataset]), and
    - [2020-03-12-OpenFF-Gen-2-Torsion-Set-2-Coverage/02_create_torsiondrive_dataset.py]
      (the torsion pipeline: the loader, the connectivity check and the
      module-level entry loop).

    Python dictionaries are insertion ordered, so a [dict] is an association
    list with the update rule of [d[k] = v]; [collections.Counter] is a finite
    map with default [0].  The chemistry toolkit and the remote service are
    external collaborators: they are parameters of the sections below. *)

From Stdlib Require Import ZArith Lia Ascii String.
From stdpp Require Import base strings list gmap pretty.

(** ** Results of fallible code *)

Inductive result (E A : Type) : Type :=
  | Ok (a : A)
  | Raise (e : E).
Arguments Ok {E A} a.
Arguments Raise {E A} e.

Global Instance result_ret {E} : MRet (result E) := λ A a, Ok a.

Global Instance result_bind {E} : MBind (result E) := λ A B k r,
  match r with
  | Ok a => k a
  | Raise e => Raise e
  end.

(** ** Python dictionaries (insertion ordered) *)

Module PyDict.

Definition dict (V : Type) : Type := list (string * V).

Definition keys {V} (d : dict V) : list string := d.*1.

Definition values {V} (d : dict V) : list V := d.*2.

(** [k in d] *)
Definition contains {V} (k : string) (d : dict V) : bool :=
  bool_decide (k ∈ keys d).

(** [d.get(k)]: [None] when the key is absent. *)
Fixpoint get {V} (k : string) (d : dict V) : option V :=
  match d with
  | [] => None
  | (k', v) :: d' => if decide (k' = k) then Some v else get k d'
  end.

(** [d[k] = v]: an existing key keeps its position and takes the new value,
    a new key goes to the end. *)
Fixpoint setitem {V} (k : string) (v : V) (d : dict V) : dict V :=
  match d with
  | [] => [(k, v)]
  | (k', v') :: d' =>
      if decide (k' = k) then (k', v) :: d' else (k', v') :: setitem k v d'
  end.

End PyDict.

(** ** [collections.Counter] over strings *)

Module Counter.

(** [c[k]]: a missing key counts [0] and is not inserted by the read. *)
Definition get (c : gmap string N) (k : string) : N := default 0%N (c !! k).

(** [c[k] += 1] *)
Definition incr (c : gmap string N) (k : string) : gmap string N :=
  <[k := (get c k + 1)%N]> c.

End Counter.

(** ** The derived key ["{index}-{index_count}"] *)

(** [f'{index}-{index_count}'] for a string [index] and a non-negative
    integer [index_count]. *)
Definition format_index (index : string) (index_count : N) : string :=
  index +:+ "-" +:+ pretty index_count.

(** No character of the string is the separator ['-']. *)
Fixpoint dash_free (s : string) : Prop :=
  match s with
  | EmptyString => True
  | String c s' => c ≠ "-"%char ∧ dash_free s'
  end.

(** ** Shared data of the two pipelines *)

(** Attributes: identifier names mapped to string values (a JSON object whose
    values, the canonical SMILES among them, are strings). *)
Abbreviation attribute_map := (gmap string string).

(** Number of occurrences of [b] in [l]. *)
Definition occurrences (b : string) (l : list string) : nat :=
  length (filter (λ x, x = b) l).

(** ** The remote service, seen from the scripts *)

Module Remote.

(** Exceptions a client call can raise; [except KeyError] catches the
    first kind only. *)
Inductive py_exn : Type :=
  | KeyError (msg : string)
  | OtherError (cls msg : string).

(** Values passed to and returned by client calls.  A float literal is kept
    as written: [JFloat m e] stands for [m * 10^e]. *)
#[warnings="-register-all"]
Inductive json : Type :=
  | JNull
  | JBool (b : bool)
  | JInt (z : Z)
  | JFloat (mantissa exponent : Z)
  | JStr (s : string)
  | JList (l : list json)
  | JObj (fields : list (string * json)).

Inductive dataset_kind : Type :=
  | OptimizationDataset
  | TorsionDriveDataset.

(** The client calls of the two scripts; [Entry] is what [add_entry] is
    given. *)
Inductive call (Entry : Type) : Type :=
  | FromFile (client_config_file : option string)
  | NewDataset (kind : dataset_kind) (name : string)
  | GetCollection (kind : dataset_kind) (name : string)
  | AddKeywords (keyword_sets : list json)
  | AddSpecification (name : string) (opt_spec qc_spec : json)
      (description : option string)
  | AddEntry (entry : Entry)
  | Save
  | Compute (specification : string) (tag : option string).
Arguments FromFile {Entry} _.
Arguments NewDataset {Entry} _ _.
Arguments GetCollection {Entry} _ _.
Arguments AddKeywords {Entry} _.
Arguments AddSpecification {Entry} _ _ _ _.
Arguments AddEntry {Entry} _.
Arguments Save {Entry}.
Arguments Compute {Entry} _ _.

Definition outcome : Type := result py_exn json.

(** A call together with what came back. *)
Abbreviation event Entry := (call Entry * outcome)%type.

(** The service answers a call knowing every earlier call and answer. *)
Definition service (Entry : Type) : Type :=
  list (event Entry) → call Entry → outcome.

(** A script run: it extends the log of events and returns or raises. *)
Definition M (Entry Err A : Type) : Type :=
  list (event Entry) → list (event Entry) * result Err A.

Global Instance M_ret {Entry Err} : MRet (M Entry Err) :=
  λ A a log, (log, Ok a).

Global Instance M_bind {Entry Err} : MBind (M Entry Err) :=
  λ A B k m log,
    match m log with
    | (log', Ok a) => k a log'
    | (log', Raise e) => (log', Raise e)
    end.

(** [raise e] *)
Definition throw {Entry Err A} (e : Err) : M Entry Err A :=
  λ log, (log, Raise e).

(** One client call; an exception propagates as [wrap e]. *)
Definition rpc {Entry Err} (remote : service Entry) (wrap : py_exn → Err)
    (c : call Entry) : M Entry Err json :=
  λ log,
    let r := remote log c in
    (log ++ [(c, r)],
     match r with
     | Ok v => Ok v
     | Raise e => Raise (wrap e)
     end).

(** Events that are a successful [add_entry]. *)
Definition is_added {Entry} (ev : event Entry) : bool :=
  match ev with
  | (AddEntry _, Ok _) => true
  | _ => false
  end.

(** Events that are a [save] call. *)
Definition is_save {Entry} (ev : event Entry) : bool :=
  match ev with
  | (Save, _) => true
  | _ => false
  end.

(** The entries handed to [add_entry], in call order. *)
Definition added_entries {Entry} (log : list (event Entry)) : list Entry :=
  omap (λ ev, match ev with
              | (AddEntry e, _) => Some e
              | _ => None
              end) log.

(** The number of successful [add_entry] calls of a log. *)
Definition additions {Entry} (log : list (event Entry)) : nat :=
  length (filter (λ ev, is_added ev) log).

(** The number of [save] calls of a log. *)
Definition saves {Entry} (log : list (event Entry)) : nat :=
  length (filter (λ ev, is_save ev) log).

(** A log reduced to what matters for persistence: the successful additions
    and the [save] calls, in order. *)
Inductive mark : Type :=
  | Added
  | Saved.

Global Instance mark_eq_dec : EqDecision mark.
Proof. solve_decision. Defined.

Definition mark_of {Entry} (ev : event Entry) : option mark :=
  match ev with
  | (AddEntry _, Ok _) => Some Added
  | (Save, _) => Some Saved
  | _ => None
  end.

Definition marks {Entry} (log : list (event Entry)) : list mark :=
  omap mark_of log.

(** The persistence rule in the words of the specification: one [save]
    after every 30th successful addition; [j] runs over the additions,
    counted from 1. *)
Definition save_after (j : nat) : list mark :=
  Added :: (if bool_decide (j `mod` 30 = 0) then [Saved] else []).

Definition save_pattern (n : nat) : list mark :=
  flat_map save_after (seq 1 n).

(** A service that accepts everything. *)
Definition accept_all {Entry} : service Entry := λ _ c,
  match c with
  | AddKeywords _ => Ok (JList [JStr "1"])
  | _ => Ok JNull
  end.

(** A service whose [add_entry] refuses every entry as a duplicate. *)
Definition reject_entries {Entry} : service Entry := λ _ c,
  match c with
  | AddEntry _ => Raise (KeyError "duplicate")
  | AddKeywords _ => Ok (JList [JStr "1"])
  | _ => Ok JNull
  end.

End Remote.

(** * The optimization pipeline: [create_optimization_dataset.py] *)

Module Optimization.
Import PyDict.

(** One element of the input list:
    [{'initial_molecules': [..], 'cmiles_identifiers': {..}}].  The values
    of [cmiles_identifiers] are strings here, as the docstring of
    [read_molecules] has them.  [AnyIdentifier] below lets them be any JSON
    value, and [AnyIdentifierFacts.read_molecules_of_str] shows that the
    indexer of this module is the one of [AnyIdentifier] on string values. *)
Record mdata (mol_data : Type) : Type := Mdata {
  initial_molecules : list mol_data;
  cmiles_identifiers : attribute_map;
}.
Arguments Mdata {mol_data} _ _.
Arguments initial_molecules {mol_data} _.
Arguments cmiles_identifiers {mol_data} _.

(** What [read_molecules] can raise, by the statement that raises it. *)
Inductive index_error (E : Type) : Type :=
  | MissingIdentifier      (* KeyError at [cmiles_ids['canonical_isomeric_smiles']] *)
  | FromDataError (e : E)  (* raised inside [Molecule.from_data] *)
  | DuplicateIndex.        (* the [assert this_index not in molecules_dict] *)
Arguments MissingIdentifier {E}.
Arguments FromDataError {E} e.
Arguments DuplicateIndex {E}.

(** The three local variables the loops of [read_molecules] update. *)
Record index_state (Molecule : Type) : Type := IndexState {
  molecules_dict : dict Molecule;
  molecule_attributes : dict attribute_map;
  index_counter : gmap string N;
}.
Arguments IndexState {Molecule} _ _ _.
Arguments molecules_dict {Molecule} _.
Arguments molecule_attributes {Molecule} _.
Arguments index_counter {Molecule} _.

Section Indexer.
Context {mol_data Molecule E : Type}.

(** [Molecule.from_data] of the chemistry toolkit. *)
Variable from_data : mol_data → result E Molecule.

(** The body of [for i_conformer, initial_molecule in enumerate(..)]. *)
Definition index_conformer (index : string) (cmiles_ids : attribute_map)
    (initial_molecule : mol_data) (st : index_state Molecule)
    : result (index_error E) (index_state Molecule) :=
  match from_data initial_molecule with
  | Raise e => Raise (FromDataError e)
  | Ok qcel_molecule =>
      let index_count := Counter.get (index_counter st) index in
      let this_index := format_index index index_count in
      let counter' := Counter.incr (index_counter st) index in
      if contains this_index (molecules_dict st) then Raise DuplicateIndex
      else Ok (IndexState
                 (setitem this_index qcel_molecule (molecules_dict st))
                 (setitem this_index cmiles_ids (molecule_attributes st))
                 counter')
  end.

Fixpoint index_conformers (index : string) (cmiles_ids : attribute_map)
    (initial_molecules : list mol_data) (st : index_state Molecule)
    : result (index_error E) (index_state Molecule) :=
  match initial_molecules with
  | [] => Ok st
  | initial_molecule :: rest =>
      st' ← index_conformer index cmiles_ids initial_molecule st;
      index_conformers index cmiles_ids rest st'
  end.

(** The body of [for mdata in molecule_data_list]. *)
Definition index_record (md : mdata mol_data) (st : index_state Molecule)
    : result (index_error E) (index_state Molecule) :=
  let cmiles_ids := cmiles_identifiers md in
  match cmiles_ids !! "canonical_isomeric_smiles"%string with
  | None => Raise MissingIdentifier
  | Some index => index_conformers index cmiles_ids (initial_molecules md) st
  end.

Fixpoint index_records (molecule_data_list : list (mdata mol_data))
    (st : index_state Molecule)
    : result (index_error E) (index_state Molecule) :=
  match molecule_data_list with
  | [] => Ok st
  | md :: rest => st' ← index_record md st; index_records rest st'
  end.

(** [read_molecules], from the parsed [molecule_data_list] on: the two
    dictionaries and the counter start empty in every call. *)
Definition read_molecules (molecule_data_list : list (mdata mol_data))
    : result (index_error E) (dict Molecule * dict attribute_map) :=
  st ← index_records molecule_data_list (IndexState [] [] ∅);
  Ok (molecules_dict st, molecule_attributes st).

End Indexer.

(** *** [create_optimization_dataset] and [main] *)

(** The arguments of
    [ds.add_entry(molecule_index, molecule, attributes=attributes)]. *)
Record opt_entry (Molecule : Type) : Type := OptEntry {
  entry_name : string;
  entry_molecule : Molecule;
  entry_attributes : attribute_map;
}.
Arguments OptEntry {Molecule} _ _ _.
Arguments entry_name {Molecule} _.
Arguments entry_molecule {Molecule} _.
Arguments entry_attributes {Molecule} _.

Definition opt_spec : Remote.json :=
  Remote.JObj [("program"%string, Remote.JStr "geometric")].

Definition qc_spec (qm_method qm_basis : string) : Remote.json :=
  Remote.JObj [("driver"%string, Remote.JStr "gradient");
               ("method"%string, Remote.JStr qm_method);
               ("basis"%string, Remote.JStr qm_basis);
               ("program"%string, Remote.JStr "psi4")].

(** What the loop of [create_optimization_dataset] hands to [add_entry] for
    one item of [molecules_dict]. *)
Definition entry_of_item {Molecule} (molecule_attributes : dict attribute_map)
    (item : string * Molecule) : opt_entry Molecule :=
  OptEntry item.1 item.2 (default ∅ (get item.1 molecule_attributes)).

Section Submitter.
Context {Molecule : Type}.
Variable remote : Remote.service (opt_entry Molecule).

Local Abbreviation M := (Remote.M (opt_entry Molecule) Remote.py_exn).

(** [for molecule_index, molecule in molecules_dict.items()]: no
    exception handler and no [save] call. *)
Fixpoint add_molecules (items : list (string * Molecule))
    (molecule_attributes : dict attribute_map) : M unit :=
  match items with
  | [] => mret ()
  | (molecule_index, molecule) :: rest =>
      let attributes :=
        default ∅ (get molecule_index molecule_attributes) in
      _ ← Remote.rpc remote id
            (Remote.AddEntry (OptEntry molecule_index molecule attributes));
      add_molecules rest molecule_attributes
  end.

Definition create_optimization_dataset (molecules_dict : dict Molecule)
    (client_config_file dataset_name qm_method qm_basis : string)
    (spec_name : string) (molecule_attributes : dict attribute_map)
    (start_compute : bool) : M unit :=
  _ ← Remote.rpc remote id (Remote.FromFile (Some client_config_file));
  _ ← Remote.rpc remote id
        (Remote.NewDataset Remote.OptimizationDataset dataset_name);
  _ ← Remote.rpc remote id
        (Remote.AddSpecification spec_name opt_spec
           (qc_spec qm_method qm_basis) None);
  _ ← add_molecules molecules_dict molecule_attributes;
  if start_compute
  then _ ← Remote.rpc remote id (Remote.Compute spec_name None); mret ()
  else mret ().

End Submitter.

(** What a run of [main] can end with. *)
Inductive main_error (E : Type) : Type :=
  | Indexing (e : index_error E)
  | Submitting (e : Remote.py_exn).
Arguments Indexing {E} e.
Arguments Submitting {E} e.

(** [main], with the command line already parsed and the input file
    already loaded. *)
Definition main {mol_data Molecule E : Type}
    (from_data : mol_data → result E Molecule)
    (remote : Remote.service (opt_entry Molecule))
    (molecule_data_list : list (mdata mol_data))
    (dataset_name client_config qm_method qm_basis : string) (start : bool)
    : list (Remote.event (opt_entry Molecule)) * result (main_error E) unit :=
  match read_molecules from_data molecule_data_list with
  | Raise e => ([], Raise (Indexing e))
  | Ok (molecules_dict, molecule_attributes) =>
      match create_optimization_dataset remote molecules_dict client_config
              dataset_name qm_method qm_basis "default" molecule_attributes
              start [] with
      | (log, Ok _) => (log, Ok ())
      | (log, Raise e) => (log, Raise (Submitting e))
      end
  end.

(** *** What the derivation rule of the keys prescribes *)

(** The base identifier of a record, when it has one. *)
Definition base_of {mol_data} (md : mdata mol_data) : option string :=
  cmiles_identifiers md !! "canonical_isomeric_smiles"%string.

(** The molecules of the input in encounter order, each with the base
    identifier and the attributes of its record. *)
Fixpoint encounters {mol_data} (l : list (mdata mol_data))
    : list (string * attribute_map * mol_data) :=
  match l with
  | [] => []
  | md :: rest =>
      match base_of md with
      | Some index =>
          ((λ m, (index, cmiles_identifiers md, m)) <$> initial_molecules md)
          ++ encounters rest
      | None => encounters rest
      end
  end.

(** The key of the molecule at position [p] of the encounter order, whose
    base identifier is [b]: [b] followed by the number of earlier
    molecules under [b]. *)
Definition nth_key (bases : list string) (p : nat) (b : string) : string :=
  format_index b (N.of_nat (occurrences b (take p bases))).

Definition expected_keys (bases : list string) : list string :=
  imap (nth_key bases) bases.

(** *** Inputs on which [read_molecules] returns *)

Section WellFormed.
Context {mol_data Molecule E : Type}.
Variable from_data : mol_data → result E Molecule.

(** [Molecule.from_data] accepts the molecule. *)
Definition constructible (m : mol_data) : Prop :=
  ∃ q, from_data m = Ok q.

(** Every record has its base identifier and only molecules that the
    toolkit accepts. *)
Definition well_formed (l : list (mdata mol_data)) : Prop :=
  Forall (λ md, is_Some (base_of md)
                ∧ Forall constructible (initial_molecules md)) l.

End WellFormed.

End Optimization.

(** * [read_molecules] on identifiers of any JSON type

    The input of [read_molecules] is parsed JSON, so the value under
    [canonical_isomeric_smiles] is whatever the file has there: a string, as
    the docstring expects, or a number, a boolean, [null], a list or an
    object.  Lines 46 to 55 use that value in two ways: as a key of the
    counter, which goes by Python's hash and equality, and inside the
    f-string, which goes by [str].  The indexer of [Optimization] is the
    restriction of the one below to string identifiers (see
    [AnyIdentifierFacts.read_molecules_of_str]). *)

Module AnyIdentifier.
Import PyDict.

(** A parsed JSON value as lines 46 to 55 see it: a [str], or a value [o] of
    another type, about which only its [str] and its dictionary key matter. *)
Inductive pyvalue (O : Type) : Type :=
  | PStr (s : string)
  | POther (o : O).
Arguments PStr {O} s.
Arguments POther {O} o.

(** One element of the input list:
    [{'initial_molecules': [..], 'cmiles_identifiers': {..}}]. *)
Record mdata (mol_data O : Type) : Type := Mdata {
  initial_molecules : list mol_data;
  cmiles_identifiers : gmap string (pyvalue O);
}.
Arguments Mdata {mol_data O} _ _.
Arguments initial_molecules {mol_data O} _.
Arguments cmiles_identifiers {mol_data O} _.

(** What [read_molecules] can raise, by the statement that raises it. *)
Inductive index_error (E : Type) : Type :=
  | MissingIdentifier      (* KeyError at [cmiles_ids['canonical_isomeric_smiles']] *)
  | FromDataError (e : E)  (* raised inside [Molecule.from_data] *)
  | UnhashableIdentifier   (* TypeError at [index_counter[index]] *)
  | DuplicateIndex.        (* the [assert this_index not in molecules_dict] *)
Arguments MissingIdentifier {E}.
Arguments FromDataError {E} e.
Arguments UnhashableIdentifier {E}.
Arguments DuplicateIndex {E}.

(** The three local variables the loops of [read_molecules] update.  A key
    of the counter is a string or the key [K] of another value. *)
Record index_state (Molecule O K : Type) `{Countable K} : Type := IndexState {
  molecules_dict : dict Molecule;
  molecule_attributes : dict (gmap string (pyvalue O));
  index_counter : gmap (string + K) N;
}.
Arguments IndexState {Molecule O K _ _} _ _ _.
Arguments molecules_dict {Molecule O K _ _} _.
Arguments molecule_attributes {Molecule O K _ _} _.
Arguments index_counter {Molecule O K _ _} _.

Section Indexer.
Context {mol_data Molecule E O K : Type} `{Countable K}.

(** [Molecule.from_data] of the chemistry toolkit. *)
Variable from_data : mol_data → result E Molecule.

(** [str(o)] of a value that is not a string: what [f'{o}'] gives. *)
Variable other_str : O → string.

(** The dictionary key of a value that is not a string: [None] when the
    value cannot be hashed (a list, an object); values that Python holds
    equal ([1], [1.0] and [True]) have the same key.  A string is equal to
    no value of another type. *)
Variable other_key : O → option K.

(** [f'{index}'] *)
Definition render (index : pyvalue O) : string :=
  match index with
  | PStr s => s
  | POther o => other_str o
  end.

(** The key [index] makes in [index_counter]. *)
Definition dict_key (index : pyvalue O) : option (string + K) :=
  match index with
  | PStr s => Some (inl s)
  | POther o => inr <$> other_key o
  end.

(** The body of [for i_conformer, initial_molecule in enumerate(..)]. *)
Definition index_conformer (index : pyvalue O)
    (cmiles_ids : gmap string (pyvalue O)) (initial_molecule : mol_data)
    (st : index_state Molecule O K)
    : result (index_error E) (index_state Molecule O K) :=
  match from_data initial_molecule with
  | Raise e => Raise (FromDataError e)
  | Ok qcel_molecule =>
      match dict_key index with
      | None => Raise UnhashableIdentifier
      | Some counter_key =>
          let index_count := default 0%N (index_counter st !! counter_key) in
          let this_index := format_index (render index) index_count in
          let counter' :=
            <[counter_key := (index_count + 1)%N]> (index_counter st) in
          if contains this_index (molecules_dict st) then Raise DuplicateIndex
          else Ok (IndexState
                     (setitem this_index qcel_molecule (molecules_dict st))
                     (setitem this_index cmiles_ids (molecule_attributes st))
                     counter')
      end
  end.

Fixpoint index_conformers (index : pyvalue O)
    (cmiles_ids : gmap string (pyvalue O)) (initial_molecules : list mol_data)
    (st : index_state Molecule O K)
    : result (index_error E) (index_state Molecule O K) :=
  match initial_molecules with
  | [] => Ok st
  | initial_molecule :: rest =>
      st' ← index_conformer index cmiles_ids initial_molecule st;
      index_conformers index cmiles_ids rest st'
  end.

(** The body of [for mdata in molecule_data_list]. *)
Definition index_record (md : mdata mol_data O)
    (st : index_state Molecule O K)
    : result (index_error E) (index_state Molecule O K) :=
  let cmiles_ids := cmiles_identifiers md in
  match cmiles_ids !! "canonical_isomeric_smiles"%string with
  | None => Raise MissingIdentifier
  | Some index => index_conformers index cmiles_ids (initial_molecules md) st
  end.

Fixpoint index_records (molecule_data_list : list (mdata mol_data O))
    (st : index_state Molecule O K)
    : result (index_error E) (index_state Molecule O K) :=
  match molecule_data_list with
  | [] => Ok st
  | md :: rest => st' ← index_record md st; index_records rest st'
  end.

(** [read_molecules], from the parsed [molecule_data_list] on. *)
Definition read_molecules (molecule_data_list : list (mdata mol_data O))
    : result (index_error E)
        (dict Molecule * dict (gmap string (pyvalue O))) :=
  st ← index_records molecule_data_list (IndexState [] [] ∅);
  Ok (molecules_dict st, molecule_attributes st).

(** *** What the derivation rule of the keys prescribes *)

(** The number of identifiers in [ids] that make the dictionary key
    [counter_key]. *)
Definition same_key_count (counter_key : option (string + K))
    (ids : list (pyvalue O)) : nat :=
  length (filter (λ w, dict_key w = counter_key) ids).

(** The key of the molecule at position [p] of the encounter order, whose
    identifier is [index]: the text of [index], a dash, and the number of
    earlier molecules whose identifier makes the same dictionary key. *)
Definition nth_key (ids : list (pyvalue O)) (p : nat) (index : pyvalue O)
    : string :=
  format_index (render index)
    (N.of_nat (same_key_count (dict_key index) (take p ids))).


(** [Molecule.from_data] accepts the molecule. *)
Definition constructible (m : mol_data) : Prop :=
  ∃ q, from_data m = Ok q.

End Indexer.

(** The identifier of a record, when it has one. *)
Definition identifier_of {mol_data O} (md : mdata mol_data O)
    : option (pyvalue O) :=
  cmiles_identifiers md !! "canonical_isomeric_smiles"%string.

(** The molecules of the input in encounter order, each with the identifier
    and the attributes of its record. *)
Fixpoint encounters {mol_data O} (l : list (mdata mol_data O))
    : list (pyvalue O * gmap string (pyvalue O) * mol_data) :=
  match l with
  | [] => []
  | md :: rest =>
      match identifier_of md with
      | Some index =>
          ((λ m, (index, cmiles_identifiers md, m)) <$> initial_molecules md)
          ++ encounters rest
      | None => encounters rest
      end
  end.

(** *** Inputs on which [read_molecules] returns *)

Section Accepted.
Context {mol_data Molecule E O K : Type} `{Countable K}.
Variable from_data : mol_data → result E Molecule.
Variable other_str : O → string.
Variable other_key : O → option K.

(** Every record has its identifier and only molecules that the toolkit
    accepts. *)
Definition well_formed (l : list (mdata mol_data O)) : Prop :=
  Forall (λ md, is_Some (identifier_of md)
                ∧ Forall (constructible from_data) (initial_molecules md)) l.


End Accepted.


(** *** The indexer of [Optimization] inside this one *)

(** A record whose attribute values are strings. *)
Definition of_str_record {mol_data} (O : Type)
    (md : Optimization.mdata mol_data) : mdata mol_data O :=
  Mdata (Optimization.initial_molecules md)
    (PStr (O:=O) <$> Optimization.cmiles_identifiers md).

Definition of_str_error {E} (e : Optimization.index_error E)
    : index_error E :=
  match e with
  | Optimization.MissingIdentifier => MissingIdentifier
  | Optimization.FromDataError e' => FromDataError e'
  | Optimization.DuplicateIndex => DuplicateIndex
  end.

Definition of_str_attributes (O : Type) (ma : dict attribute_map)
    : dict (gmap string (pyvalue O)) :=
  (λ item : string * attribute_map, (item.1, PStr (O:=O) <$> item.2))
  <$> (ma : list (string * attribute_map)).

Definition of_str_state {Molecule} (O K : Type) `{Countable K}
    (st : Optimization.index_state Molecule) : index_state Molecule O K :=
  IndexState (Optimization.molecules_dict st)
    (of_str_attributes O (Optimization.molecule_attributes st))
    (kmap inl (Optimization.index_counter st)).

Definition of_str_result {E A B} (f : A → B)
    (r : result (Optimization.index_error E) A) : result (index_error E) B :=
  match r with
  | Ok a => Ok (f a)
  | Raise e => Raise (of_str_error e)
  end.

End AnyIdentifier.

(** * The torsion pipeline: [02_create_torsiondrive_dataset.py] *)

Module Torsion.
Import Remote.

(** ** The loader *)

(** What a path of the working directory holds: a plain file with its
    text, or a gzipped tar archive with its members. *)
Inductive file : Type :=
  | Plain (text : string)
  | TarGz (members : gmap string string).

Definition filesystem : Type := gmap string file.

Inductive load_error : Type :=
  | FileNotFoundError (path : string)
  | UnicodeDecodeError (path : string) (* reading an archive as text *)
  | ReadError (path : string)          (* [tarfile.open] of a plain file *)
  | MemberNotFound (member : string)   (* KeyError of [extractfile] *)
  | JSONDecodeError.

(** [os.path.exists] *)
Definition path_exists (fs : filesystem) (path : string) : bool :=
  bool_decide (is_Some (fs !! path)).

(** [open(path)] followed by reading the text: the bytes of an archive are
    not text, and decoding them fails. *)
Definition open_text (fs : filesystem) (path : string)
    : result load_error string :=
  match fs !! path with
  | None => Raise (FileNotFoundError path)
  | Some (Plain text) => Ok text
  | Some (TarGz _) => Raise (UnicodeDecodeError path)
  end.

(** [tarfile.open(path)] *)
Definition tarfile_open (fs : filesystem) (path : string)
    : result load_error (gmap string string) :=
  match fs !! path with
  | None => Raise (FileNotFoundError path)
  | Some (Plain _) => Raise (ReadError path)
  | Some (TarGz members) => Ok members
  end.

(** [TarFile.extractfile(member)]: a reader over the bytes of the member.
    Nothing is written to the file system. *)
Definition extractfile (members : gmap string string) (member : string)
    : result load_error string :=
  match members !! member with
  | None => Raise (MemberNotFound member)
  | Some text => Ok text
  end.

Section Loader.
Context {Torsions : Type}.

(** [json.load] on the text of the file. *)
Variable json_load : string → option Torsions.

Definition read_selected_torsions (fs : filesystem) (input_json : string)
    : result load_error Torsions :=
  text ← open_text fs input_json;
  match json_load text with
  | Some selected_torsions => Ok selected_torsions
  | None => Raise JSONDecodeError
  end.

(** Lines 36 to 39 of the script.  The file system is returned too: it is
    what the [open] of [read_selected_torsions] sees. *)
Definition load_selected_torsions (fs : filesystem)
    : filesystem * result load_error Torsions :=
  let after_extract : result load_error filesystem :=
    if path_exists fs "coverage_selected_torsions.json"
    then Ok fs
    else
      f ← tarfile_open fs "coverage_selected_torsions.json.tar.gz";
      _ ← extractfile f "coverage_selected_torsions.json";
      Ok fs
  in
  match after_extract with
  | Raise e => (fs, Raise e)
  | Ok fs' =>
      (fs', read_selected_torsions fs' "coverage_selected_torsions.json")
  end.

End Loader.

(** ** The chemistry toolkit *)

Class Toolkit (mol_data Molecule Geometry E : Type) : Type := {
  (** [qcel.models.Molecule] applied to the fields of the data *)
  molecule_of_data : mol_data → result E Molecule;
  symbols : Molecule → list string;
  geometry : Molecule → Geometry;
  (** [qcel.molutil.guess_connectivity]: the inferred bonds *)
  guess_connectivity : list string → Geometry → list (nat * nat);
}.

(** ** Records and entries *)

(** One value of the loaded mapping. *)
Record torsion_data (mol_data : Type) : Type := TorsionData {
  initial_molecules : list mol_data;
  atom_indices : list (list Z);
  attributes : attribute_map;
}.
Arguments TorsionData {mol_data} _ _ _.
Arguments initial_molecules {mol_data} _.
Arguments atom_indices {mol_data} _.
Arguments attributes {mol_data} _.

(** The arguments of the [ds.add_entry] call of the entry loop. *)
Record td_entry (mol_data : Type) : Type := TdEntry {
  entry_name : string;
  entry_initial_molecules : list mol_data;
  entry_dihedrals : list (list Z);
  entry_grid_spacing : list Z;
  entry_energy_upper_limit : json;
  entry_attributes : attribute_map;
  entry_save : bool;
}.
Arguments TdEntry {mol_data} _ _ _ _ _ _ _.
Arguments entry_name {mol_data} _.
Arguments entry_initial_molecules {mol_data} _.
Arguments entry_dihedrals {mol_data} _.
Arguments entry_grid_spacing {mol_data} _.
Arguments entry_energy_upper_limit {mol_data} _.
Arguments entry_attributes {mol_data} _.
Arguments entry_save {mol_data} _.

(** What the script can end with after loading, by the statement that
    raises. *)
Inductive torsion_error (E : Type) : Type :=
  | RemoteRaised (e : py_exn)
  | BadKeywordsId                (* [client.add_keywords([kw])[0]] *)
  | NoInitialMolecule            (* IndexError at [initial_molecules[0]] *)
  | MoleculeRejected (e : E)     (* raised by [qcel.models.Molecule] *)
  | ConnectivityAssertion (conn : list (nat * nat)).
Arguments RemoteRaised {E} e.
Arguments BadKeywordsId {E}.
Arguments NoInitialMolecule {E}.
Arguments MoleculeRejected {E} e.
Arguments ConnectivityAssertion {E} conn.

(** What the entry loop hands to [add_entry] for one item of the loaded
    mapping. *)
Definition entry_of_torsion {mol_data} (canonical_torsion_index : string)
    (torsion_data : torsion_data mol_data) : td_entry mol_data :=
  TdEntry canonical_torsion_index (initial_molecules torsion_data)
    (atom_indices torsion_data)
    (replicate (length (atom_indices torsion_data)) 15%Z)
    (JFloat 5 (-2)) (attributes torsion_data) false.

Definition collection_name : string := "OpenFF Gen 2 Torsion Set 2 Coverage".
Definition UPDATE : bool := false.

Definition opt_spec : json :=
  JObj [("program"%string, JStr "geometric");
        ("keywords"%string,
         JObj [("coordsys"%string, JStr "tric");
               ("enforce"%string, JFloat 1 (-1));
               ("reset"%string, JBool true);
               ("qccnv"%string, JBool true);
               ("epsilon"%string, JFloat 0 0)])].

Definition kw : json :=
  JObj [("maxiter"%string, JInt 200);
        ("scf_properties"%string,
         JList [JStr "dipole"; JStr "quadrupole";
                JStr "wiberg_lowdin_indices"; JStr "mayer_indices"])].

Definition qc_spec (kw_id : json) : json :=
  JObj [("driver"%string, JStr "gradient");
        ("method"%string, JStr "B3LYP-d3bj");
        ("basis"%string, JStr "dzvp");
        ("program"%string, JStr "psi4");
        ("keywords"%string, kw_id)].

Section Script.
Context {mol_data Molecule Geometry E : Type}.
Context `{!Toolkit mol_data Molecule Geometry E}.
Variable remote : service (td_entry mol_data).

Local Abbreviation M := (Remote.M (td_entry mol_data) (torsion_error E)).

(** Lines 44 to 90: the client and the dataset. *)
Definition initialize_dataset : M unit :=
  _ ← rpc remote RemoteRaised (FromFile None);
  if UPDATE
  then
    _ ← rpc remote RemoteRaised
          (GetCollection TorsionDriveDataset collection_name);
    mret ()
  else
    _ ← rpc remote RemoteRaised
          (NewDataset TorsionDriveDataset collection_name);
    kw_ids ← rpc remote RemoteRaised (AddKeywords [kw]);
    kw_id ← match kw_ids with
             | JList (kw_id :: _) => mret kw_id
             | _ => throw BadKeywordsId
             end;
    _ ← rpc remote RemoteRaised
          (AddSpecification "default" opt_spec (qc_spec kw_id)
             (Some "Standard OpenFF torsiondrive specification."%string));
    mret ().

(** Lines 104 to 107: the connectivity check on the first molecule. *)
Definition check_connectivity (initial_molecules : list mol_data)
    : result (torsion_error E) unit :=
  match initial_molecules with
  | [] => Raise NoInitialMolecule
  | first :: _ =>
      match molecule_of_data first with
      | Raise e => Raise (MoleculeRejected e)
      | Ok molecule =>
          let conn :=
            guess_connectivity (symbols molecule) (geometry molecule) in
          (* [assert (len(conn) + 3) > len(molecule.symbols), conn] *)
          if bool_decide (length (symbols molecule) < length conn + 3)
          then Ok ()
          else Raise (ConnectivityAssertion conn)
      end
  end.

(** The body of the [for] loop of lines 96 to 125; [i] is the counter of
    the script, which starts at [0] and only ever grows. *)
Definition add_torsion (canonical_torsion_index : string)
    (torsion_data : torsion_data mol_data) (i : nat) : M nat :=
  λ log,
    let attributes := attributes torsion_data in
    let torsion_atom_indices := atom_indices torsion_data in
    let grid_spacings := replicate (length torsion_atom_indices) 15%Z in
    let initial_molecules := initial_molecules torsion_data in
    match check_connectivity initial_molecules with
    | Raise e => (log, Raise e)
    | Ok _ =>
        let c := AddEntry (TdEntry canonical_torsion_index
                             initial_molecules torsion_atom_indices
                             grid_spacings (JFloat 5 (-2)) attributes
                             false) in
        let r := remote log c in
        let log' := log ++ [(c, r)] in
        match r with
        | Raise (KeyError _) => (log', Ok i)          (* [continue] *)
        | Raise e => (log', Raise (RemoteRaised e))
        | Ok _ =>
            let i := i + 1 in
            if bool_decide (i `mod` 30 = 0)
            then (_ ← rpc remote RemoteRaised Save; mret i) log'
            else (log', Ok i)
        end
    end.

Fixpoint add_torsions (items : list (string * torsion_data mol_data))
    (i : nat) : M nat :=
  match items with
  | [] => mret i
  | (canonical_torsion_index, torsion_data) :: rest =>
      i' ← add_torsion canonical_torsion_index torsion_data i;
      add_torsions rest i'
  end.

(** Lines 127 to 130: the last [ds.save()] and [ds.compute]. *)
Definition finish : M json :=
  _ ← rpc remote RemoteRaised Save;
  comp ← rpc remote RemoteRaised (Compute "default" (Some "openff"%string));
  mret comp.

(** The script from line 44 on, given the loaded mapping. *)
Definition submit_torsions
    (selected_torsions : list (string * torsion_data mol_data)) : M json :=
  _ ← initialize_dataset;
  _ ← add_torsions selected_torsions 0;
  finish.

End Script.

End Torsion.

(** * Concrete collaborators and inputs *)

Module Examples.

(** A toolkit for the optimization pipeline: a molecule is built from any
    non-empty description. *)
Inductive built_molecule : Type :=
  | Built (description : string).

Definition from_data (m : string) : result string built_molecule :=
  if decide (m = ""%string) then Raise "no atoms"%string else Ok (Built m).

(** A toolkit whose molecules are strings too: it puts the description in
    its canonical form, with a capital first letter. *)
Definition from_data_canonical (m : string) : result string string :=
  match m with
  | EmptyString => Raise "no atoms"%string
  | String c rest => Ok (String (Ascii.ascii_of_nat (Ascii.nat_of_ascii c - 32)) rest)
  end.

(** A second toolkit, which builds other objects from the same data. *)
Definition from_data_length (m : string) : result string nat :=
  Ok (String.length m).

Definition cco_ids : attribute_map :=
  {[ "canonical_isomeric_smiles"%string := "CCO"%string ]}.

Definition cc_ids : attribute_map :=
  {[ "canonical_isomeric_smiles"%string := "CC"%string;
     "molecular_formula"%string := "C2H6"%string ]}.

(** Two records share the base identifier ["CCO"]; the first has two
    conformers. *)
Definition optimization_input : list (Optimization.mdata string) :=
  [ Optimization.Mdata ["ethanol a"; "ethanol b"]%string cco_ids;
    Optimization.Mdata ["ethane"]%string cc_ids;
    Optimization.Mdata ["ethanol c"]%string cco_ids ].









(** A toolkit for the torsion pipeline: the data already lists the atoms and
    the bonds that the connectivity guess returns. *)
Record atoms_and_bonds : Type := AtomsAndBonds {
  atom_symbols : list string;
  bonds : list (nat * nat);
}.

Global Instance listed_bonds
    : Torsion.Toolkit atoms_and_bonds atoms_and_bonds (list (nat * nat)) string := {|
  Torsion.molecule_of_data d :=
    match atom_symbols d with
    | [] => Raise "no atoms"%string
    | _ => Ok d
    end;
  Torsion.symbols := atom_symbols;
  Torsion.geometry := bonds;
  Torsion.guess_connectivity _ g := g;
|}.

(** Ethane: eight atoms, seven bonds. *)
Definition ethane : atoms_and_bonds :=
  AtomsAndBonds ["C"; "C"; "H"; "H"; "H"; "H"; "H"; "H"]%string
    [(0, 1); (0, 2); (0, 3); (0, 4); (1, 5); (1, 6); (1, 7)].

(** Two methyl fragments far apart plus two lone hydrogens: eight atoms,
    four bonds. *)
Definition fragments : atoms_and_bonds :=
  AtomsAndBonds ["C"; "C"; "H"; "H"; "H"; "H"; "H"; "H"]%string
    [(0, 2); (0, 3); (1, 5); (1, 6)].

Definition rot_1 : Torsion.torsion_data atoms_and_bonds :=
  Torsion.TorsionData [ethane] [[0; 1; 2; 3]%Z]
    {[ "canonical_isomeric_smiles"%string := "CC"%string ]}.

Definition rot_2 : Torsion.torsion_data atoms_and_bonds :=
  Torsion.TorsionData [fragments] [[0; 1; 2; 3]%Z; [1; 0; 2; 3]%Z]
    {[ "canonical_isomeric_smiles"%string := "C.C"%string ]}.

(** Ethane again, with two atom-index tuples. *)
Definition rot_3 : Torsion.torsion_data atoms_and_bonds :=
  Torsion.TorsionData [ethane] [[0; 1; 2; 3]%Z; [1; 0; 2; 3]%Z]
    {[ "canonical_isomeric_smiles"%string := "CC"%string ]}.

(** The log of the torsion script once the dataset is prepared, with a
    service that answers these calls as [Remote.accept_all] does. *)
Definition prepared_torsions
    : list (Remote.event (Torsion.td_entry atoms_and_bonds)) :=
  [ (Remote.FromFile None, Ok Remote.JNull);
    (Remote.NewDataset Remote.TorsionDriveDataset Torsion.collection_name,
     Ok Remote.JNull);
    (Remote.AddKeywords [Torsion.kw], Ok (Remote.JList [Remote.JStr "1"]));
    (Remote.AddSpecification "default" Torsion.opt_spec
       (Torsion.qc_spec (Remote.JStr "1"))
       (Some "Standard OpenFF torsiondrive specification."%string),
     Ok Remote.JNull) ].

(** The log of [create_optimization_dataset] before its loop, under the
    arguments of the runs below. *)
Definition prepared_optimization
    : list (Remote.event (Optimization.opt_entry built_molecule)) :=
  [ (Remote.FromFile (Some "client.yaml"%string), Ok Remote.JNull);
    (Remote.NewDataset Remote.OptimizationDataset "dataset", Ok Remote.JNull);
    (Remote.AddSpecification "default" Optimization.opt_spec
       (Optimization.qc_spec "b3lyp-d3bj" "dzvp") None,
     Ok Remote.JNull) ].

(** What [read_molecules] returns on [optimization_input] with [from_data],
    and the molecules it returns with [from_data_length]. *)
Definition indexed_molecules : PyDict.dict built_molecule :=
  [ ("CCO-0"%string, Built "ethanol a"); ("CCO-1"%string, Built "ethanol b");
    ("CC-0"%string, Built "ethane"); ("CCO-2"%string, Built "ethanol c") ].

Definition indexed_attributes : PyDict.dict attribute_map :=
  [ ("CCO-0"%string, cco_ids); ("CCO-1"%string, cco_ids);
    ("CC-0"%string, cc_ids); ("CCO-2"%string, cco_ids) ].

Definition indexed_lengths : PyDict.dict nat :=
  [ ("CCO-0"%string, 9); ("CCO-1"%string, 9);
    ("CC-0"%string, 6); ("CCO-2"%string, 9) ].

(** Thirty-one torsion records, all with the molecule of [rot_1]. *)
Definition thirty_one_torsions
    : list (string * Torsion.torsion_data atoms_and_bonds) :=
  (λ j, ("rot_" +:+ pretty j, rot_1)) <$> seq 1 31.

(** A working directory that holds the archive only. *)
Definition archive_only : Torsion.filesystem :=
  {[ "coverage_selected_torsions.json.tar.gz"%string :=
       Torsion.TarGz {[ "coverage_selected_torsions.json"%string := "{}"%string ]} ]}.

(** A service whose connection is lost at the first [add_entry]. *)
Definition connection_lost {Entry} : Remote.service Entry := λ _ c,
  match c with
  | Remote.AddEntry _ =>
      Raise (Remote.OtherError "ConnectionError" "connection lost")
  | Remote.AddKeywords _ => Ok (Remote.JList [Remote.JStr "1"])
  | _ => Ok Remote.JNull
  end.

End Examples.

(** * Facts about the embedding *)

(** ** Dictionaries and counters *)

Module PyDictFacts.
Import PyDict.

Lemma setitem_fresh {V} (k : string) (v : V) (d : dict V) :
  k ∉ keys d → setitem k v d = d ++ [(k, v)].
Proof.
  unfold keys. induction d as [|[k' v'] d IH]; simpl; intros Hk; [done|].
  apply not_elem_of_cons in Hk as [Hne Hk].
  destruct (decide (k' = k)) as [->|_]; [done|].
  by rewrite IH.
Qed.

(** With distinct keys, the value under the key at position [p] is the
    value at position [p]. *)
Lemma get_zip_lookup {V} (ks : list string) (vs : list V) (p : nat)
    (k : string) (v : V) :
  NoDup ks → ks !! p = Some k → vs !! p = Some v →
  get k (zip ks vs) = Some v.
Proof.
  revert p vs. induction ks as [|k' ks IH]; intros p vs Hnd Hk Hv; [done|].
  apply NoDup_cons in Hnd as [Hfresh Hnd].
  destruct vs as [|v' vs]; [done|]. destruct p as [|p]; simplify_eq/=.
  - by rewrite decide_True.
  - rewrite decide_False; [by eapply IH|].
    intros ->. apply Hfresh. by eapply list_elem_of_lookup_2.
Qed.

End PyDictFacts.

Module CounterFacts.
Import Counter.

Lemma get_empty (k : string) : get ∅ k = 0%N.
Proof. unfold get. by rewrite lookup_empty. Qed.

Lemma get_incr_eq (c : gmap string N) (k : string) :
  get (incr c k) k = (get c k + 1)%N.
Proof. unfold incr, get at 1. by rewrite lookup_insert_eq. Qed.

Lemma get_incr_ne (c : gmap string N) (k k' : string) :
  k ≠ k' → get (incr c k) k' = get c k'.
Proof. intros Hne. unfold incr, get at 1 3. by rewrite lookup_insert_ne. Qed.

End CounterFacts.

(** ** The derived key can be split again *)

Lemma pretty_N_char_no_dash (x : N) : pretty_N_char x ≠ "-"%char.
Proof. unfold pretty_N_char. by repeat case_match. Qed.

Lemma pretty_N_go_dash_free (x : N) (s : string) :
  dash_free s → dash_free (pretty_N_go x s).
Proof.
  revert s. induction (N.lt_wf_0 x) as [x _ IH]; intros s Hs.
  destruct (decide (x = 0%N)) as [->|Hx]; [by rewrite pretty_N_go_0|].
  rewrite pretty_N_go_step by lia.
  apply IH; [apply N.div_lt; lia|].
  split; [apply pretty_N_char_no_dash|done].
Qed.

Lemma pretty_N_dash_free (x : N) : dash_free (pretty x).
Proof.
  unfold pretty, pretty_N. case_decide.
  - by repeat split.
  - by apply pretty_N_go_dash_free.
Qed.

Lemma append_nil_l (s : string) : "" +:+ s = s.
Proof. reflexivity. Qed.

Lemma append_cons_l (c : ascii) (s t : string) :
  String c s +:+ t = String c (s +:+ t).
Proof. reflexivity. Qed.

Ltac push_append :=
  repeat (rewrite append_nil_l || rewrite append_cons_l).

Lemma dash_free_app_dash (b d : string) : ¬ dash_free (b +:+ "-" +:+ d).
Proof.
  induction b as [|c b IH]; push_append; simpl.
  - intros [Hne _]. by apply Hne.
  - intros [_ Hb]. by apply IH.
Qed.

(** Splitting at the last ['-'] recovers the two parts. *)
Lemma split_last_dash (b1 b2 d1 d2 : string) :
  dash_free d1 → dash_free d2 →
  b1 +:+ "-" +:+ d1 = b2 +:+ "-" +:+ d2 → b1 = b2 ∧ d1 = d2.
Proof.
  intros Hd1 Hd2. revert b2.
  induction b1 as [|c1 b1 IH]; intros [|c2 b2]; push_append; intros Heq.
  - by simplify_eq.
  - injection Heq as _ Heq. rewrite Heq in Hd1.
    by apply dash_free_app_dash in Hd1.
  - injection Heq as _ Heq. rewrite <-Heq in Hd2.
    by apply dash_free_app_dash in Hd2.
  - injection Heq as -> Heq. by apply IH in Heq as [-> ->].
Qed.

Lemma format_index_inj (b1 b2 : string) (n1 n2 : N) :
  format_index b1 n1 = format_index b2 n2 → b1 = b2 ∧ n1 = n2.
Proof.
  unfold format_index. intros Heq.
  apply split_last_dash in Heq as [-> Hp]; auto using pretty_N_dash_free.
  split; [done|]. by apply (inj pretty).
Qed.

(** ** Logs of client calls *)

Module RemoteFacts.
Import Remote.

Section Logs.
Context {Entry : Type}.
Implicit Types (log : list (event Entry)) (c : call Entry) (r : outcome).

Lemma added_entries_app log1 log2 :
  added_entries (log1 ++ log2) = added_entries log1 ++ added_entries log2.
Proof. apply omap_app. Qed.

Lemma added_entries_snoc log c r :
  added_entries (log ++ [(c, r)])
  = added_entries log ++ match c with AddEntry e => [e] | _ => [] end.
Proof. rewrite added_entries_app. by destruct c. Qed.

Lemma marks_snoc log c r :
  marks (log ++ [(c, r)]) = marks log ++ option_list (mark_of (c, r)).
Proof.
  unfold marks. rewrite omap_app. simpl.
  by destruct (mark_of (c, r)).
Qed.

Lemma additions_snoc log c r :
  additions (log ++ [(c, r)])
  = additions log + (if is_added (c, r) then 1 else 0).
Proof.
  unfold additions. rewrite filter_app, length_app. f_equal.
  by destruct c, r.
Qed.

Lemma saves_snoc log c r :
  saves (log ++ [(c, r)]) = saves log + (if is_save (c, r) then 1 else 0).
Proof.
  unfold saves. rewrite filter_app, length_app. f_equal.
  by destruct c, r.
Qed.

End Logs.

Lemma bind_run {Entry Err A B} (m : M Entry Err A) (k : A → M Entry Err B)
    (log : list (event Entry)) :
  (m ≫= k) log
  = match m log with
    | (log', Ok a) => k a log'
    | (log', Raise e) => (log', Raise e)
    end.
Proof. reflexivity. Qed.

Lemma bind_rpc {Entry Err A} (remote : service Entry) (wrap : py_exn → Err)
    (c : call Entry) (k : json → M Entry Err A) (log : list (event Entry)) :
  (rpc remote wrap c ≫= k) log
  = match remote log c with
    | Ok v => k v (log ++ [(c, Ok v)])
    | Raise e => (log ++ [(c, Raise e)], Raise (wrap e))
    end.
Proof. unfold mbind, M_bind, rpc. by destruct (remote log c). Qed.

Lemma saves_marks {Entry} (log : list (event Entry)) :
  saves log = length (filter (λ m, m = Saved) (marks log)).
Proof.
  induction log as [|[c r] log IH] using rev_ind; [done|].
  rewrite saves_snoc, marks_snoc.
  rewrite filter_app, length_app, IH. f_equal.
  by destruct c, r.
Qed.

Lemma additions_marks {Entry} (log : list (event Entry)) :
  additions log = length (filter (λ m, m = Added) (marks log)).
Proof.
  induction log as [|[c r] log IH] using rev_ind; [done|].
  rewrite additions_snoc, marks_snoc.
  rewrite filter_app, length_app, IH. f_equal.
  by destruct c, r.
Qed.

(** The pattern grows by one addition at a time. *)
Lemma save_pattern_S (n : nat) :
  save_pattern (S n) = save_pattern n ++ save_after (S n).
Proof.
  unfold save_pattern. rewrite seq_S, flat_map_app. simpl.
  by rewrite app_nil_r.
Qed.

(** [n] additions make [n / 30] saves fall due. *)
Lemma div_30_succ (n : nat) :
  S n `div` 30 = n `div` 30 + (if bool_decide (S n `mod` 30 = 0) then 1 else 0).
Proof.
  pose proof (Nat.div_mod_eq n 30) as Hn.
  pose proof (Nat.div_mod_eq (S n) 30) as HSn.
  pose proof (Nat.mod_upper_bound n 30 ltac:(lia)) as Hlt.
  pose proof (Nat.mod_upper_bound (S n) 30 ltac:(lia)) as HSlt.
  case_bool_decide; nia.
Qed.

Lemma saved_in_save_pattern (n : nat) :
  length (filter (λ m, m = Saved) (save_pattern n)) = n `div` 30.
Proof.
  induction n as [|n IH]; [done|].
  rewrite save_pattern_S, filter_app, length_app, IH, div_30_succ.
  f_equal. unfold save_after.
  rewrite filter_cons_False by done.
  case_bool_decide; [by rewrite filter_cons_True by done|done].
Qed.

Lemma added_in_save_pattern (n : nat) :
  length (filter (λ m, m = Added) (save_pattern n)) = n.
Proof.
  induction n as [|n IH]; [done|].
  rewrite save_pattern_S, filter_app, length_app, IH.
  unfold save_after. rewrite filter_cons_True by done.
  case_bool_decide; [|simpl; lia].
  rewrite filter_cons_False by done. simpl. lia.
Qed.

End RemoteFacts.

(** ** The indexer *)

Module OptimizationFacts.
Import PyDict PyDictFacts Optimization.

(** *** Counting occurrences and the expected keys *)

Lemma occurrences_app (b : string) (l1 l2 : list string) :
  occurrences b (l1 ++ l2) = occurrences b l1 + occurrences b l2.
Proof. unfold occurrences. by rewrite filter_app, length_app. Qed.

Lemma occurrences_snoc_eq (b : string) (l : list string) :
  occurrences b (l ++ [b]) = S (occurrences b l).
Proof.
  rewrite occurrences_app. unfold occurrences at 2.
  rewrite filter_cons_True by done. simpl. lia.
Qed.

Lemma occurrences_snoc_ne (b b' : string) (l : list string) :
  b' ≠ b → occurrences b (l ++ [b']) = occurrences b l.
Proof.
  intros Hne. rewrite occurrences_app. unfold occurrences at 2.
  rewrite filter_cons_False by done. simpl. lia.
Qed.

Lemma occurrences_take_lt (b : string) (l : list string) (p : nat) :
  l !! p = Some b → occurrences b (take p l) < occurrences b l.
Proof.
  intros Hp. rewrite <-(take_drop_middle l p b Hp) at 2.
  rewrite occurrences_app. unfold occurrences at 3.
  rewrite filter_cons_True by done. simpl. lia.
Qed.

Lemma length_expected_keys (bases : list string) :
  length (expected_keys bases) = length bases.
Proof. unfold expected_keys. apply length_imap. Qed.

Lemma lookup_expected_keys (bases : list string) (p : nat) (b : string) :
  bases !! p = Some b →
  expected_keys bases !! p
  = Some (format_index b (N.of_nat (occurrences b (take p bases)))).
Proof.
  intros Hp. unfold expected_keys. rewrite list_lookup_imap, Hp. done.
Qed.

Lemma expected_keys_snoc (bases : list string) (b : string) :
  expected_keys (bases ++ [b])
  = expected_keys bases
    ++ [format_index b (N.of_nat (occurrences b bases))].
Proof.
  unfold expected_keys. rewrite imap_app. f_equal.
  - apply imap_ext. intros p x Hp. unfold nth_key.
    rewrite take_app_le; [done|].
    apply lookup_lt_Some in Hp. lia.
  - simpl. unfold nth_key. rewrite Nat.add_0_r.
    by rewrite take_app_length.
Qed.

Lemma elem_of_expected_keys (bases : list string) (k : string) :
  k ∈ expected_keys bases →
  ∃ b n, k = format_index b (N.of_nat n) ∧ n < occurrences b bases.
Proof.
  intros Hk. apply list_elem_of_lookup in Hk as [p Hp].
  unfold expected_keys in Hp. rewrite list_lookup_imap in Hp.
  destruct (bases !! p) as [b|] eqn:Hb; simplify_eq/=.
  exists b, (occurrences b (take p bases)). split; [done|].
  by apply occurrences_take_lt.
Qed.

(** The next key of a base identifier is not among the keys given out. *)
Lemma next_key_fresh (bases : list string) (b : string) :
  format_index b (N.of_nat (occurrences b bases)) ∉ expected_keys bases.
Proof.
  intros Hin. apply elem_of_expected_keys in Hin as (b' & n & Heq & Hlt).
  apply format_index_inj in Heq as [<- Hn]. lia.
Qed.

Lemma NoDup_expected_keys (bases : list string) :
  NoDup (expected_keys bases).
Proof.
  induction bases as [|b bases IH] using rev_ind.
  - constructor.
  - rewrite expected_keys_snoc. apply NoDup_app. split_and!.
    + done.
    + intros k Hk Hk'. apply list_elem_of_singleton in Hk' as ->.
      by apply next_key_fresh in Hk.
    + apply NoDup_singleton.
Qed.

(** *** The loop invariant of [read_molecules] *)

Section IndexerProofs.
Context {mol_data Molecule E : Type}.
Variable from_data : mol_data → result E Molecule.

(** The state after the molecules [qs] were stored, [tags] being their
    base identifiers and attributes in encounter order. *)
Record indexed (st : index_state Molecule)
    (tags : list (string * attribute_map)) (qs : list Molecule) : Prop :=
  Indexed {
    indexed_length : length tags = length qs;
    indexed_counter : ∀ b,
      Counter.get (index_counter st) b
      = N.of_nat (occurrences b tags.*1);
    indexed_molecules :
      molecules_dict st = zip (expected_keys tags.*1) qs;
    indexed_attributes :
      molecule_attributes st = zip (expected_keys tags.*1) tags.*2;
  }.

Lemma indexed_init : indexed (IndexState [] [] ∅) [] [].
Proof.
  split; try done; intros b; by rewrite CounterFacts.get_empty.
Qed.

Lemma indexed_keys_molecules st tags qs :
  indexed st tags qs → keys (molecules_dict st) = expected_keys tags.*1.
Proof.
  intros [Hlen _ -> _]. unfold keys. apply fst_zip.
  rewrite length_expected_keys, length_fmap. lia.
Qed.

Lemma indexed_keys_attributes st tags qs :
  indexed st tags qs →
  keys (molecule_attributes st) = expected_keys tags.*1.
Proof.
  intros [_ _ _ ->]. unfold keys. apply fst_zip.
  by rewrite length_expected_keys, !length_fmap.
Qed.

(** One iteration of the inner loop on an accepted molecule. *)
Lemma index_conformer_indexed index cmiles_ids m q st tags qs :
  indexed st tags qs → from_data m = Ok q →
  ∃ st', index_conformer from_data index cmiles_ids m st = Ok st'
         ∧ indexed st' (tags ++ [(index, cmiles_ids)]) (qs ++ [q]).
Proof.
  intros Hst Hq. unfold index_conformer. rewrite Hq.
  pose proof (indexed_keys_molecules _ _ _ Hst) as Hkm.
  pose proof (indexed_keys_attributes _ _ _ Hst) as Hka.
  destruct Hst as [Hlen Hctr Hmd Hma].
  assert (format_index index (Counter.get (index_counter st) index)
          ∉ expected_keys tags.*1) as Hfresh.
  { rewrite Hctr. apply next_key_fresh. }
  unfold contains. rewrite bool_decide_eq_false_2 by by rewrite Hkm.
  eexists; split; [done|]. split; simpl.
  - rewrite !length_app. simpl. lia.
  - intros b. rewrite fmap_app. simpl.
    destruct (decide (index = b)) as [->|Hne].
    + rewrite CounterFacts.get_incr_eq, occurrences_snoc_eq, Hctr. lia.
    + by rewrite CounterFacts.get_incr_ne, occurrences_snoc_ne, Hctr.
  - rewrite setitem_fresh by by rewrite Hkm.
    rewrite fmap_app. simpl. rewrite expected_keys_snoc, Hctr, Hmd.
    rewrite zip_with_app; [done|].
    rewrite length_expected_keys, length_fmap. lia.
  - rewrite setitem_fresh by by rewrite Hka.
    rewrite !fmap_app. simpl. rewrite expected_keys_snoc, Hctr, Hma.
    rewrite zip_with_app; [done|].
    by rewrite length_expected_keys, !length_fmap.
Qed.

(** The inner loop: it ends normally exactly when the toolkit accepts
    every conformer, and never at the assertion. *)
Lemma index_conformers_spec index cmiles_ids mols st tags qs :
  indexed st tags qs →
  match index_conformers from_data index cmiles_ids mols st with
  | Ok st' =>
      ∃ qs', Forall2 (λ m q, from_data m = Ok q) mols qs'
             ∧ indexed st' (tags ++ ((λ _, (index, cmiles_ids)) <$> mols))
                 (qs ++ qs')
  | Raise e => e ≠ DuplicateIndex ∧ ¬ Forall (constructible from_data) mols
  end.
Proof.
  revert st tags qs.
  induction mols as [|m mols IH]; intros st tags qs Hst; simpl.
  - exists []. split; [constructor|]. by rewrite !app_nil_r.
  - destruct (from_data m) as [q|e] eqn:Hq.
    + destruct (index_conformer_indexed index cmiles_ids m q _ _ _ Hst Hq)
        as (st1 & -> & Hst1). simpl.
      specialize (IH _ _ _ Hst1).
      destruct (index_conformers from_data index cmiles_ids mols st1)
        as [st'|e].
      * destruct IH as (qs' & Hqs' & Hst').
        exists (q :: qs'). split; [by constructor|].
        by rewrite <-!app_assoc in Hst'.
      * destruct IH as [Hne Hnot]. split; [done|].
        intros Hall. apply Hnot. by inversion Hall.
    + unfold index_conformer. rewrite Hq. simpl. split; [done|].
      intros Hall. inversion Hall as [|?? [q' Hq']]. congruence.
Qed.

(** The outer loop, in the same form. *)
Lemma index_records_spec l st tags qs :
  indexed st tags qs →
  match index_records from_data l st with
  | Ok st' =>
      ∃ qs', Forall2 (λ x q, from_data x.2 = Ok q) (encounters l) qs'
             ∧ indexed st' (tags ++ (encounters l).*1) (qs ++ qs')
             ∧ well_formed from_data l
  | Raise e => e ≠ DuplicateIndex ∧ ¬ well_formed from_data l
  end.
Proof.
  revert st tags qs.
  induction l as [|md l IH]; intros st tags qs Hst; simpl.
  - exists []. split; [constructor|]. rewrite !app_nil_r.
    split; [done|constructor].
  - unfold index_record, base_of.
    destruct (cmiles_identifiers md !! "canonical_isomeric_smiles"%string)
      as [index|] eqn:Hbase; simpl.
    2:{ split; [done|]. intros Hwf. inversion Hwf as [|?? [Hsome _]].
        unfold base_of in Hsome. rewrite Hbase in Hsome.
        by destruct Hsome. }
    pose proof (index_conformers_spec index (cmiles_identifiers md)
                  (initial_molecules md) _ _ _ Hst) as Hin.
    destruct (index_conformers from_data index (cmiles_identifiers md)
                (initial_molecules md) st) as [st1|e]; simpl.
    2:{ destruct Hin as [Hne Hnot]. split; [done|].
        intros Hwf. apply Hnot. by inversion Hwf as [|?? [_ ?]]. }
    destruct Hin as (qs1 & Hqs1 & Hst1).
    specialize (IH _ _ _ Hst1).
    destruct (index_records from_data l st1) as [st'|e].
    + destruct IH as (qs2 & Hqs2 & Hst' & Hwf).
      exists (qs1 ++ qs2). split_and!.
      * apply Forall2_app; [|done]. by apply Forall2_fmap_l.
      * rewrite fmap_app, <-list_fmap_compose.
        by rewrite <-!app_assoc in Hst'.
      * constructor; [|done]. unfold base_of. rewrite Hbase.
        split; [done|].
        eapply Forall2_Forall_l; [done|].
        apply Forall_true. intros q m Hm. by exists q.
    + destruct IH as [Hne Hnot]. split; [done|].
      intros Hwf. apply Hnot. by inversion Hwf.
Qed.

(** [read_molecules] as a whole. *)
Lemma read_molecules_spec l :
  match read_molecules from_data l with
  | Ok (md, ma) =>
      ∃ qs, Forall2 (λ x q, from_data x.2 = Ok q) (encounters l) qs
            ∧ md = zip (expected_keys (encounters l).*1.*1) qs
            ∧ ma = zip (expected_keys (encounters l).*1.*1)
                     (encounters l).*1.*2
            ∧ well_formed from_data l
  | Raise e => e ≠ DuplicateIndex ∧ ¬ well_formed from_data l
  end.
Proof.
  unfold read_molecules.
  pose proof (index_records_spec l _ _ _ indexed_init) as Hspec.
  destruct (index_records from_data l (IndexState [] [] ∅))
    as [st|e]; simpl; [|done].
  destruct Hspec as (qs & Hqs & [_ _ Hmd Hma] & Hwf).
  exists qs. by rewrite Hmd, Hma.
Qed.

Lemma read_molecules_total l :
  well_formed from_data l → ∃ md ma, read_molecules from_data l = Ok (md, ma).
Proof.
  intros Hwf. pose proof (read_molecules_spec l) as Hspec.
  destruct (read_molecules from_data l) as [[md ma]|e]; [by eauto|].
  by destruct Hspec as [_ []].
Qed.

End IndexerProofs.

(** Every encounter comes from a record of the input. *)
Lemma elem_of_encounters {mol_data} (l : list (mdata mol_data))
    (b : string) (cmiles_ids : attribute_map) (m : mol_data) :
  (b, cmiles_ids, m) ∈ encounters l →
  ∃ md, md ∈ l ∧ base_of md = Some b
        ∧ cmiles_ids = cmiles_identifiers md ∧ m ∈ initial_molecules md.
Proof.
  induction l as [|md l IH]; simpl; [by intros ?%elem_of_nil|].
  destruct (base_of md) as [index|] eqn:Hbase.
  - rewrite elem_of_app, list_elem_of_fmap.
    intros [(m' & [= -> -> ->] & Hm)|Hin].
    + exists md. split_and!; [left|done..].
    + destruct (IH Hin) as (md' & ? & ?). exists md'. split; [by right|done].
  - intros Hin. destruct (IH Hin) as (md' & ? & ?).
    exists md'. split; [by right|done].
Qed.

(** The keys given to one base identifier, in encounter order. *)
Lemma keys_of_base (bases : list string) (b : string) :
  (filter (λ x, x.1 = b) (zip bases (expected_keys bases))).*2
  = (λ n, format_index b (N.of_nat n)) <$> seq 0 (occurrences b bases).
Proof.
  induction bases as [|b' bases IH] using rev_ind; [done|].
  rewrite expected_keys_snoc.
  rewrite zip_with_app by by rewrite length_expected_keys.
  rewrite filter_app, fmap_app, IH. simpl.
  destruct (decide (b' = b)) as [->|Hne].
  - rewrite filter_cons_True by done.
    rewrite occurrences_snoc_eq, seq_S, fmap_app. done.
  - rewrite filter_cons_False by done.
    rewrite occurrences_snoc_ne by done. by rewrite app_nil_r.
Qed.

End OptimizationFacts.

(** ** The indexer on identifiers of any JSON type *)

Module AnyIdentifierFacts.
Import PyDict PyDictFacts AnyIdentifier.

Section IndexerProofs.
Context {mol_data Molecule E O K : Type} `{Countable K}.
Variable from_data : mol_data → result E Molecule.
Variable other_str : O → string.
Variable other_key : O → option K.

Implicit Types (ids : list (pyvalue O)) (index : pyvalue O)
  (counter_key : option (string + K)).

(** *** Counting identifiers and the derived keys *)












(** *** The loop invariant of [read_molecules] *)









End IndexerProofs.


Section Strings.
Context {mol_data Molecule E O K : Type} `{Countable K}.
Variable from_data : mol_data → result E Molecule.
Variable other_str : O → string.
Variable other_key : O → option K.



End Strings.

(** *** The indexer of [Optimization] is this one on string identifiers *)

Lemma setitem_of_str_attributes (O : Type) (k : string)
    (cmiles_ids : attribute_map) (ma : dict attribute_map) :
  setitem k (PStr (O:=O) <$> cmiles_ids) (of_str_attributes O ma)
  = of_str_attributes O (setitem k cmiles_ids ma).
Proof.
  unfold of_str_attributes.
  induction ma as [|[k' v'] ma IH]; simpl; [done|].
  destruct (decide (k' = k)) as [->|Hne]; [done|].
  rewrite fmap_cons. f_equal. exact IH.
Qed.

Section OfStr.
Context {mol_data Molecule E O K : Type} `{Countable K}.
Variable from_data : mol_data → result E Molecule.
Variable other_str : O → string.
Variable other_key : O → option K.

Lemma index_conformer_of_str (index : string) (cmiles_ids : attribute_map)
    (m : mol_data) (st : Optimization.index_state Molecule) :
  index_conformer from_data other_str other_key (PStr index)
    (PStr <$> cmiles_ids) m (of_str_state O K st)
  = of_str_result (of_str_state O K)
      (Optimization.index_conformer from_data index cmiles_ids m st).
Proof.
  unfold index_conformer, Optimization.index_conformer.
  destruct (from_data m) as [q|e]; [|done]. simpl.
  rewrite (lookup_kmap inl). unfold Counter.get, contains.
  case_bool_decide; [done|]. simpl. unfold of_str_state. simpl.
  f_equal. f_equal.
  - apply setitem_of_str_attributes.
  - unfold Counter.incr, Counter.get. by rewrite (kmap_insert inl).
Qed.

Lemma index_conformers_of_str (index : string) (cmiles_ids : attribute_map)
    (mols : list mol_data) (st : Optimization.index_state Molecule) :
  index_conformers from_data other_str other_key (PStr index)
    (PStr <$> cmiles_ids) mols (of_str_state O K st)
  = of_str_result (of_str_state O K)
      (Optimization.index_conformers from_data index cmiles_ids mols st).
Proof.
  revert st. induction mols as [|m mols IH]; intros st; simpl; [done|].
  rewrite index_conformer_of_str.
  destruct (Optimization.index_conformer from_data index cmiles_ids m st)
    as [st'|e]; simpl; [apply IH|done].
Qed.

Lemma index_records_of_str (l : list (Optimization.mdata mol_data))
    (st : Optimization.index_state Molecule) :
  index_records from_data other_str other_key (of_str_record O <$> l)
    (of_str_state O K st)
  = of_str_result (of_str_state O K)
      (Optimization.index_records from_data l st).
Proof.
  revert st. induction l as [|md l IH]; intros st; simpl; [done|].
  unfold index_record, Optimization.index_record. simpl.
  rewrite lookup_fmap.
  destruct (Optimization.cmiles_identifiers md
            !! "canonical_isomeric_smiles"%string) as [index|]; simpl;
    [|done].
  rewrite index_conformers_of_str.
  destruct (Optimization.index_conformers from_data index
              (Optimization.cmiles_identifiers md)
              (Optimization.initial_molecules md) st) as [st'|e]; simpl;
    [apply IH|done].
Qed.

(** On records whose attribute values are strings, [read_molecules] is the
    [read_molecules] of [Optimization]: same outcome, same dictionaries. *)
Lemma read_molecules_of_str (l : list (Optimization.mdata mol_data)) :
  read_molecules from_data other_str other_key (of_str_record O <$> l)
  = of_str_result (λ r, (r.1, of_str_attributes O r.2))
      (Optimization.read_molecules from_data l).
Proof.
  unfold read_molecules, Optimization.read_molecules.
  pose proof (index_records_of_str l (Optimization.IndexState [] [] ∅))
    as Hrun.
  unfold of_str_state in Hrun at 1. simpl in Hrun.
  rewrite kmap_empty in Hrun. rewrite Hrun.
  by destruct (Optimization.index_records from_data l _).
Qed.

End OfStr.

End AnyIdentifierFacts.

(** ** The loop of [create_optimization_dataset] *)

Module SubmitterFacts.
Import PyDict PyDictFacts Remote RemoteFacts Optimization OptimizationFacts.

Section Submitter.
Context {Molecule : Type}.
Variable remote : service (opt_entry Molecule).

(** An [add_entry] that raises ends the loop with that exception, whatever
    the exception is. *)
Lemma add_molecules_raise (item : string * Molecule) rest molecule_attributes
    log (e : py_exn) :
  remote log (AddEntry (entry_of_item molecule_attributes item)) = Raise e →
  add_molecules remote (item :: rest) molecule_attributes log
  = (log ++ [(AddEntry (entry_of_item molecule_attributes item), Raise e)],
     Raise e).
Proof.
  intros Hr. destruct item as [k q]. simpl.
  rewrite bind_rpc. unfold entry_of_item in Hr. simpl in Hr. by rewrite Hr.
Qed.

(** The loop hands the items over in order, as they are, and never saves. *)
Lemma add_molecules_log items molecule_attributes log :
  ∃ sent,
    added_entries (add_molecules remote items molecule_attributes log).1
    = added_entries log ++ sent
    ∧ sent `prefix_of` (entry_of_item molecule_attributes <$> items)
    ∧ saves (add_molecules remote items molecule_attributes log).1 = saves log.
Proof.
  revert log. induction items as [|[k q] items IH]; intros log; simpl.
  - exists []. rewrite app_nil_r. split_and!; [done|apply prefix_nil|done].
  - rewrite bind_rpc.
    destruct (remote log _) as [v|e] eqn:Hr; simpl.
    + destruct (IH (log ++ [(AddEntry (OptEntry k q
                  (default ∅ (get k molecule_attributes))), Ok v)]))
        as (sent & Hsent & Hpre & Hsaves).
      exists (entry_of_item molecule_attributes (k, q) :: sent). split_and!.
      * rewrite Hsent, added_entries_snoc. by rewrite <-app_assoc.
      * by apply prefix_cons.
      * rewrite Hsaves, saves_snoc. simpl. lia.
    + exists [entry_of_item molecule_attributes (k, q)]. split_and!.
      * by rewrite added_entries_snoc.
      * apply prefix_cons, prefix_nil.
      * rewrite saves_snoc. simpl. lia.
Qed.

(** The loop runs over a concatenation as over its parts, one after the
    other. *)
Lemma add_molecules_app items1 items2 molecule_attributes log :
  add_molecules remote (items1 ++ items2) molecule_attributes log
  = (add_molecules remote items1 molecule_attributes
     ≫= λ _, add_molecules remote items2 molecule_attributes) log.
Proof.
  revert log. induction items1 as [|[k q] items1 IH]; intros log; simpl.
  - done.
  - rewrite (bind_run (_ ≫= _)), !bind_rpc.
    destruct (remote log _) as [v|e]; [|done].
    rewrite IH. by rewrite bind_run.
Qed.

(** A run without [compute] on the items [pre] ends in the state in which a
    run on [pre ++ items] starts on [items]. *)
Lemma create_optimization_dataset_reaches pre items client_config_file
    dataset_name qm_method qm_basis spec_name molecule_attributes
    start_compute log :
  create_optimization_dataset remote pre client_config_file dataset_name
    qm_method qm_basis spec_name molecule_attributes false [] = (log, Ok ()) →
  create_optimization_dataset remote (pre ++ items) client_config_file
    dataset_name qm_method qm_basis spec_name molecule_attributes
    start_compute []
  = (add_molecules remote items molecule_attributes
     ≫= λ _, if start_compute
             then _ ← rpc remote id (Compute spec_name None); mret ()
             else mret ()) log.
Proof.
  unfold create_optimization_dataset. intros Hpre.
  rewrite bind_rpc in Hpre |- *.
  destruct (remote _ _) as [v1|e1]; [|done].
  rewrite bind_rpc in Hpre |- *.
  destruct (remote _ _) as [v2|e2]; [|done].
  rewrite bind_rpc in Hpre |- *.
  destruct (remote _ _) as [v3|e3]; [|done].
  rewrite bind_run in Hpre. rewrite bind_run, add_molecules_app, bind_run.
  destruct (add_molecules remote pre molecule_attributes _)
    as [log' [[]|e]]; [|done].
  simpl in Hpre. injection Hpre as ->. by rewrite bind_run.
Qed.

Lemma create_optimization_dataset_log molecules_dict client_config_file
    dataset_name qm_method qm_basis spec_name molecule_attributes
    start_compute :
  let log := (create_optimization_dataset remote molecules_dict
                client_config_file dataset_name qm_method qm_basis spec_name
                molecule_attributes start_compute []).1 in
  added_entries log
    `prefix_of` (entry_of_item molecule_attributes <$> molecules_dict)
  ∧ saves log = 0.
Proof.
  unfold create_optimization_dataset.
  rewrite bind_rpc. destruct (remote _ _) as [v1|e1];
    [|by split; [apply prefix_nil|]].
  rewrite bind_rpc. destruct (remote _ _) as [v2|e2];
    [|by split; [apply prefix_nil|]].
  rewrite bind_rpc. destruct (remote _ _) as [v3|e3];
    [|by split; [apply prefix_nil|]].
  rewrite bind_run.
  match goal with
  | |- context [add_molecules remote ?items ?ma ?log] =>
      destruct (add_molecules_log items ma log) as (sent & Hsent & Hpre & Hsv);
      destruct (add_molecules remote items ma log) as [log' [[]|e]]
  end; simpl in *.
  - destruct start_compute.
    + rewrite bind_rpc. destruct (remote log' _) as [v|e]; simpl;
        rewrite added_entries_snoc, saves_snoc, Hsent, Hsv, app_nil_r; done.
    + simpl. by rewrite Hsent, Hsv.
  - by rewrite Hsent, Hsv.
Qed.

End Submitter.

(** What [main] hands to [add_entry], call by call: the key of the
    encounter, the molecule the toolkit built from the loaded data and the
    attributes of the record. *)
Lemma main_added_entries {mol_data Molecule E}
    (from_data : mol_data → result E Molecule)
    (remote : service (opt_entry Molecule)) (l : list (mdata mol_data))
    (dataset_name client_config qm_method qm_basis : string) (start : bool)
    (p : nat) (e : opt_entry Molecule) :
  added_entries (main from_data remote l dataset_name client_config
                   qm_method qm_basis start).1 !! p = Some e →
  ∃ b cmiles_ids m,
    encounters l !! p = Some (b, cmiles_ids, m)
    ∧ from_data m = Ok (entry_molecule e)
    ∧ entry_attributes e = cmiles_ids
    ∧ entry_name e = nth_key (encounters l).*1.*1 p b.
Proof.
  unfold main. pose proof (read_molecules_spec from_data l) as Hspec.
  destruct (read_molecules from_data l) as [[md ma]|err]; [|done].
  destruct Hspec as (qs & Hqs & Hmd & Hma & _).
  pose proof (create_optimization_dataset_log remote md client_config
                dataset_name qm_method qm_basis "default" ma start)
    as [Hpre _].
  destruct (create_optimization_dataset remote md client_config dataset_name
              qm_method qm_basis "default" ma start []) as [log [[]|err]];
    simpl in *; intros Hp;
    eapply prefix_lookup_Some in Hp; try exact Hpre.
  all: apply list_lookup_fmap_Some in Hp as ([k q] & -> & Hitem).
  all: rewrite Hmd in Hitem.
  all: apply lookup_zip_with_Some in Hitem as (k' & q' & ? & Hk & Hq);
    simplify_eq.
  all: destruct (Forall2_lookup_r _ _ _ _ _ Hqs Hq) as ([[b cm] m] & Hx & Hm).
  all: assert ((encounters l).*1.*1 !! p = Some b) as Hb
    by by rewrite !list_lookup_fmap, Hx.
  all: rewrite (lookup_expected_keys _ _ _ Hb) in Hk; simplify_eq.
  all: exists b, cm, m; split_and!; try done.
  all: unfold entry_of_item; simpl.
  all: erewrite get_zip_lookup;
    [done|apply NoDup_expected_keys|by apply lookup_expected_keys|].
  all: by rewrite !list_lookup_fmap, Hx.
Qed.

End SubmitterFacts.

(** ** The entry loop of the torsion script *)

Module TorsionFacts.
Import Remote RemoteFacts Torsion.

(** A log is a prefix of itself with more events appended. *)
Ltac prefix_tail :=
  solve [ reflexivity | apply prefix_app_r; prefix_tail ].

Section Script.
Context {mol_data Molecule Geometry E : Type}.
Context `{!Toolkit mol_data Molecule Geometry E}.
Variable remote : service (td_entry mol_data).

Implicit Types (td : torsion_data mol_data) (log : list (event (td_entry mol_data))).

(** The four ways one iteration can go. *)
Lemma add_torsion_check_fails k td i log e :
  check_connectivity (initial_molecules td) = Raise e →
  add_torsion remote k td i log = (log, Raise e).
Proof. intros Hc. unfold add_torsion. by rewrite Hc. Qed.

Lemma add_torsion_duplicate k td i log msg :
  check_connectivity (initial_molecules td) = Ok () →
  remote log (AddEntry (entry_of_torsion k td)) = Raise (KeyError msg) →
  add_torsion remote k td i log
  = (log ++ [(AddEntry (entry_of_torsion k td), Raise (KeyError msg))], Ok i).
Proof.
  intros Hc Hr. unfold add_torsion. rewrite Hc.
  unfold entry_of_torsion in Hr. by rewrite Hr.
Qed.

Lemma add_torsion_other_error k td i log cls msg :
  check_connectivity (initial_molecules td) = Ok () →
  remote log (AddEntry (entry_of_torsion k td)) = Raise (OtherError cls msg) →
  add_torsion remote k td i log
  = (log ++ [(AddEntry (entry_of_torsion k td), Raise (OtherError cls msg))],
     Raise (RemoteRaised (OtherError cls msg))).
Proof.
  intros Hc Hr. unfold add_torsion. rewrite Hc.
  unfold entry_of_torsion in Hr. by rewrite Hr.
Qed.

Lemma add_torsion_added k td i log v :
  check_connectivity (initial_molecules td) = Ok () →
  remote log (AddEntry (entry_of_torsion k td)) = Ok v →
  add_torsion remote k td i log
  = let log' := log ++ [(AddEntry (entry_of_torsion k td), Ok v)] in
    if bool_decide (S i `mod` 30 = 0)
    then (log' ++ [(Save, remote log' Save)],
          match remote log' Save with
          | Ok _ => Ok (S i)
          | Raise e => Raise (RemoteRaised e)
          end)
    else (log', Ok (S i)).
Proof.
  intros Hc Hr. unfold add_torsion. rewrite Hc.
  unfold entry_of_torsion in Hr. rewrite Hr. cbv beta iota zeta.
  rewrite Nat.add_1_r. unfold entry_of_torsion.
  case_bool_decide; [|done].
  rewrite bind_rpc. by destruct (remote _ Save).
Qed.

(** One iteration, whatever way it goes. *)
Lemma add_torsion_log k td i log :
  ∃ sent n,
    added_entries (add_torsion remote k td i log).1 = added_entries log ++ sent
    ∧ sent `prefix_of` [entry_of_torsion k td]
    ∧ marks (add_torsion remote k td i log).1
      = marks log ++ flat_map save_after (seq (S i) n)
    ∧ additions (add_torsion remote k td i log).1 = additions log + n
    ∧ ∀ i', (add_torsion remote k td i log).2 = Ok i' →
            i' = i + n ∧ sent = [entry_of_torsion k td].
Proof.
  destruct (check_connectivity (initial_molecules td)) as [[]|e] eqn:Hc.
  2:{ rewrite (add_torsion_check_fails _ _ _ _ _ Hc). exists [], 0. simpl.
      rewrite !app_nil_r. split_and!; [done|apply prefix_nil|done|lia|done]. }
  destruct (remote log (AddEntry (entry_of_torsion k td)))
    as [v|[msg|cls msg]] eqn:Hr.
  - rewrite (add_torsion_added _ _ _ _ _ Hc Hr).
    exists [entry_of_torsion k td], 1. cbn zeta.
    case_bool_decide as Hmod; simpl.
    + rewrite !added_entries_snoc, !marks_snoc, !additions_snoc. simpl.
      unfold save_after. rewrite bool_decide_eq_true_2 by done.
      rewrite !app_nil_r, <-!app_assoc. simpl.
      split_and!; [done|done|done|lia|].
      destruct (remote _ Save); [|done]. intros ? [= <-]. split; [lia|done].
    + rewrite !added_entries_snoc, !marks_snoc, !additions_snoc. simpl.
      unfold save_after. rewrite bool_decide_eq_false_2 by done.
      rewrite !app_nil_r. split_and!; [done|done|done|lia|].
      intros ? [= <-]. split; [lia|done].
  - rewrite (add_torsion_duplicate _ _ _ _ _ Hc Hr).
    exists [entry_of_torsion k td], 0. simpl.
    rewrite !added_entries_snoc, !marks_snoc, !additions_snoc. simpl.
    rewrite !app_nil_r. split_and!; [done|done|done|lia|].
    intros ? [= <-]. split; [lia|done].
  - rewrite (add_torsion_other_error _ _ _ _ _ _ Hc Hr).
    exists [entry_of_torsion k td], 0. simpl.
    rewrite !added_entries_snoc, !marks_snoc, !additions_snoc. simpl.
    rewrite !app_nil_r. split_and!; [done|done|done|lia|done].
Qed.

(** The whole loop: the entries are handed over in order and unchanged, and
    every addition is followed by a [save] exactly when the counter reaches
    a multiple of 30. *)
Lemma add_torsions_log items i log :
  ∃ sent n,
    added_entries (add_torsions remote items i log).1
    = added_entries log ++ sent
    ∧ sent `prefix_of` ((λ item, entry_of_torsion item.1 item.2) <$> items)
    ∧ marks (add_torsions remote items i log).1
      = marks log ++ flat_map save_after (seq (S i) n)
    ∧ additions (add_torsions remote items i log).1 = additions log + n
    ∧ ∀ i', (add_torsions remote items i log).2 = Ok i' →
            i' = i + n
            ∧ sent = (λ item, entry_of_torsion item.1 item.2) <$> items.
Proof.
  revert i log. induction items as [|[k td] items IH]; intros i log; simpl.
  - exists [], 0. simpl. rewrite !app_nil_r.
    split_and!; [done|done|done|lia|]. intros ? [= <-]. split; [lia|done].
  - rewrite bind_run.
    destruct (add_torsion_log k td i log)
      as (sent1 & n1 & Hsent1 & Hpre1 & Hmarks1 & Hadd1 & Hok1).
    destruct (add_torsion remote k td i log) as [log1 [i1|e]]; simpl in *.
    + destruct (Hok1 i1 eq_refl) as [-> ->].
      destruct (IH (i + n1) log1)
        as (sent2 & n2 & Hsent2 & Hpre2 & Hmarks2 & Hadd2 & Hok2).
      exists (entry_of_torsion k td :: sent2), (n1 + n2). split_and!.
      * rewrite Hsent2, Hsent1. by rewrite <-app_assoc.
      * by apply prefix_cons.
      * rewrite Hmarks2, Hmarks1, <-app_assoc. f_equal.
        rewrite seq_app, flat_map_app. repeat f_equal; lia.
      * rewrite Hadd2, Hadd1. lia.
      * intros i' Hi'. destruct (Hok2 i' Hi') as [-> ->]. split; [lia|done].
    + exists sent1, n1. split_and!; try done.
      destruct Hpre1 as [rest Hrest]. destruct sent1 as [|x sent1].
      * apply prefix_nil.
      * simplify_eq/=. destruct sent1; [|done].
        apply prefix_cons, prefix_nil.
Qed.

(** Preparing the dataset adds no entry and saves nothing. *)
Lemma initialize_dataset_log log :
  added_entries (initialize_dataset (E:=E) remote log).1 = added_entries log
  ∧ marks (initialize_dataset (E:=E) remote log).1 = marks log
  ∧ additions (initialize_dataset (E:=E) remote log).1 = additions log.
Proof.
  unfold initialize_dataset, UPDATE.
  rewrite bind_rpc. destruct (remote _ _) as [v1|e1]; simpl;
    [|by rewrite added_entries_snoc, marks_snoc, additions_snoc, !app_nil_r,
           Nat.add_0_r].
  rewrite bind_rpc. destruct (remote _ _) as [v2|e2]; simpl;
    [|by rewrite !added_entries_snoc, !marks_snoc, !additions_snoc,
           !app_nil_r, !Nat.add_0_r].
  rewrite bind_rpc. destruct (remote _ _) as [v3|e3]; simpl;
    [|by rewrite !added_entries_snoc, !marks_snoc, !additions_snoc,
           !app_nil_r, !Nat.add_0_r].
  rewrite bind_run.
  assert (∀ kw_ids : json,
    match (match kw_ids with
           | JList (kw_id :: _) => mret kw_id
           | _ => throw BadKeywordsId
           end : M (td_entry mol_data) (torsion_error E) json)
            (((log ++ [(FromFile None, Ok v1)])
              ++ [(NewDataset TorsionDriveDataset collection_name, Ok v2)])
             ++ [(AddKeywords [kw], Ok kw_ids)]) with
    | (log', _) =>
        log' = ((log ++ [(FromFile None, Ok v1)])
                ++ [(NewDataset TorsionDriveDataset collection_name, Ok v2)])
               ++ [(AddKeywords [kw], Ok kw_ids)]
    end) as Hid.
  { intros [| | | | |[|? ?]|]; done. }
  specialize (Hid v3).
  destruct (_ : list _ * result _ json) as [log' [kw_id|e]] in Hid |- *;
    subst log'; simpl.
  - rewrite bind_rpc. destruct (remote _ _) as [v4|e4]; simpl;
      by rewrite !added_entries_snoc, !marks_snoc, !additions_snoc,
           !app_nil_r, !Nat.add_0_r.
  - by rewrite !added_entries_snoc, !marks_snoc, !additions_snoc,
         !app_nil_r, !Nat.add_0_r.
Qed.

(** The log only grows. *)
Lemma add_torsion_extends k td i log :
  log `prefix_of` (add_torsion remote k td i log).1.
Proof.
  destruct (check_connectivity (initial_molecules td)) as [[]|e] eqn:Hc.
  2:{ by rewrite (add_torsion_check_fails _ _ _ _ _ Hc). }
  destruct (remote log (AddEntry (entry_of_torsion k td)))
    as [v|[msg|cls msg]] eqn:Hr.
  - rewrite (add_torsion_added _ _ _ _ _ Hc Hr). cbv zeta.
    case_bool_decide; simpl.
    + rewrite <-app_assoc. by apply prefix_app_r.
    + by apply prefix_app_r.
  - rewrite (add_torsion_duplicate _ _ _ _ _ Hc Hr). by apply prefix_app_r.
  - rewrite (add_torsion_other_error _ _ _ _ _ _ Hc Hr).
    by apply prefix_app_r.
Qed.

Lemma add_torsions_extends items i log :
  log `prefix_of` (add_torsions remote items i log).1.
Proof.
  revert i log. induction items as [|[k td] items IH]; intros i log; simpl.
  - done.
  - rewrite bind_run. pose proof (add_torsion_extends k td i log) as Hpre.
    destruct (add_torsion remote k td i log) as [log1 [i1|e]]; simpl in *.
    + etrans; [exact Hpre|apply IH].
    + done.
Qed.

(** An iteration whose check passes calls [add_entry] next, with the entry
    of the record. *)
Lemma add_torsion_calls_add_entry k td i log :
  check_connectivity (initial_molecules td) = Ok () →
  (log ++ [(AddEntry (entry_of_torsion k td),
            remote log (AddEntry (entry_of_torsion k td)))])
  `prefix_of` (add_torsion remote k td i log).1.
Proof.
  intros Hc.
  destruct (remote log (AddEntry (entry_of_torsion k td)))
    as [v|[msg|cls msg]] eqn:Hr.
  - rewrite (add_torsion_added _ _ _ _ _ Hc Hr). cbv zeta.
    case_bool_decide; simpl; [by apply prefix_app_r|done].
  - by rewrite (add_torsion_duplicate _ _ _ _ _ Hc Hr).
  - by rewrite (add_torsion_other_error _ _ _ _ _ _ Hc Hr).
Qed.

Lemma finish_extends log : log `prefix_of` (finish (E:=E) remote log).1.
Proof.
  unfold finish. rewrite bind_rpc.
  destruct (remote log Save) as [v|e]; simpl; [|prefix_tail].
  rewrite bind_rpc. destruct (remote _ _) as [v'|e]; simpl; prefix_tail.
Qed.

(** The loop runs over a concatenation as over its parts, one after the
    other. *)
Lemma add_torsions_app items1 items2 i log :
  add_torsions remote (items1 ++ items2) i log
  = (add_torsions remote items1 i ≫= add_torsions remote items2) log.
Proof.
  revert i log. induction items1 as [|[k td] items1 IH]; intros i log; simpl.
  - done.
  - rewrite !bind_run.
    destruct (add_torsion remote k td i log) as [log1 [i1|e]]; [|done].
    rewrite IH. by rewrite bind_run.
Qed.

(** The script on a mapping of which the records [pre] went through the
    loop: what remains is the loop over the other records and the last two
    calls. *)
Lemma submit_torsions_reaches pre items log0 i log :
  initialize_dataset (E:=E) remote [] = (log0, Ok ()) →
  add_torsions remote pre 0 log0 = (log, Ok i) →
  submit_torsions remote (pre ++ items) []
  = (add_torsions remote items i ≫= λ _, finish remote) log.
Proof.
  intros Hinit Hpre. unfold submit_torsions.
  rewrite bind_run, Hinit. rewrite bind_run, add_torsions_app.
  rewrite bind_run, Hpre. by rewrite bind_run.
Qed.

(** When the check of the next record passes, the next call of the script
    is the [add_entry] of that record. *)
Lemma submit_torsions_next_call pre k td rest log0 i log :
  initialize_dataset (E:=E) remote [] = (log0, Ok ()) →
  add_torsions remote pre 0 log0 = (log, Ok i) →
  check_connectivity (initial_molecules td) = Ok () →
  (submit_torsions remote (pre ++ (k, td) :: rest) []).1 !! length log
  = Some (AddEntry (entry_of_torsion k td),
          remote log (AddEntry (entry_of_torsion k td))).
Proof.
  intros Hinit Hpre Hcheck.
  rewrite (submit_torsions_reaches _ _ _ _ _ Hinit Hpre).
  pose proof (add_torsion_calls_add_entry k td i log Hcheck) as Hcall.
  assert ((log ++ [(AddEntry (entry_of_torsion k td),
                    remote log (AddEntry (entry_of_torsion k td)))])
          `prefix_of` ((add_torsions remote ((k, td) :: rest) i
                        ≫= λ _, finish remote) log).1) as Hall.
  { rewrite bind_run. simpl. rewrite bind_run.
    destruct (add_torsion remote k td i log) as [log1 [i1|e]]; simpl in *;
      [|done].
    pose proof (add_torsions_extends rest i1 log1) as Hrest.
    destruct (add_torsions remote rest i1 log1) as [log2 [i2|e]]; simpl in *.
    - pose proof (finish_extends log2). by repeat (etrans; [eassumption|]).
    - by etrans. }
  eapply prefix_lookup_Some; [|exact Hall].
  rewrite lookup_app_r by lia. by rewrite Nat.sub_diag.
Qed.

(** The last two calls of the script. *)
Lemma finish_log log :
  added_entries (finish (E:=E) remote log).1 = added_entries log
  ∧ additions (finish (E:=E) remote log).1 = additions log
  ∧ marks (finish (E:=E) remote log).1 = marks log ++ [Saved].
Proof.
  unfold finish. rewrite bind_rpc.
  destruct (remote log Save) as [v|e]; simpl.
  2:{ by rewrite added_entries_snoc, additions_snoc, marks_snoc, app_nil_r,
           Nat.add_0_r. }
  rewrite bind_rpc. destruct (remote _ _) as [v'|e]; simpl;
    by rewrite !added_entries_snoc, !additions_snoc, !marks_snoc, !app_nil_r,
         !Nat.add_0_r.
Qed.

(** The script as a whole. *)
Lemma submit_torsions_log items :
  added_entries (submit_torsions remote items []).1
    `prefix_of` ((λ item, entry_of_torsion item.1 item.2) <$> items)
  ∧ ∀ comp, (submit_torsions remote items []).2 = Ok comp →
      added_entries (submit_torsions remote items []).1
      = (λ item, entry_of_torsion item.1 item.2) <$> items
      ∧ marks (submit_torsions remote items []).1
        = save_pattern (additions (submit_torsions remote items []).1)
          ++ [Saved].
Proof.
  unfold submit_torsions. rewrite bind_run.
  destruct (initialize_dataset_log []) as (Hent0 & Hmarks0 & Hadd0).
  destruct (initialize_dataset remote []) as [log0 [[]|e]]; simpl in *.
  2:{ rewrite Hent0. split; [apply prefix_nil|done]. }
  rewrite bind_run.
  destruct (add_torsions_log items 0 log0)
    as (sent & n & Hsent & Hpre & Hmarks & Hadd & Hok).
  destruct (add_torsions remote items 0 log0) as [log1 [i1|e]]; simpl in *.
  2:{ rewrite Hsent, Hent0. split; [done|done]. }
  destruct (finish_log log1) as (Hent2 & Hadd2 & Hmarks2).
  destruct (Hok i1 eq_refl) as [-> ->].
  rewrite Hent2, Hadd2, Hmarks2, Hsent, Hent0, Hmarks, Hmarks0, Hadd, Hadd0.
  split; [done|]. intros comp _. split; [done|].
  unfold additions at 1. done.
Qed.

End Script.

End TorsionFacts.

(** * The claims about the indexer *)

Section IndexerClaims.
Import PyDict Optimization OptimizationFacts.
Context {mol_data Molecule E : Type}.
Variable from_data : mol_data → result E Molecule.

(** C7.  The two dictionaries returned by [read_molecules] have the same
    keys, in the same order. *)
Theorem read_molecules_same_keys (l : list (mdata mol_data))
    (md : dict Molecule) (ma : dict attribute_map) :
  read_molecules from_data l = Ok (md, ma) →
  keys md = keys ma ∧ ∀ k, contains k md = contains k ma.
Proof.
  intros Hrun. pose proof (read_molecules_spec from_data l) as Hspec.
  rewrite Hrun in Hspec. destruct Hspec as (qs & Hqs & -> & -> & _).
  assert (keys (zip (expected_keys (encounters l).*1.*1) qs)
          = keys (zip (expected_keys (encounters l).*1.*1)
                    (encounters l).*1.*2)) as Hkeys.
  { unfold keys. rewrite !fst_zip; [done|..];
      rewrite length_expected_keys, !length_fmap; [done|].
    by rewrite (Forall2_length _ _ _ Hqs). }
  split; [done|]. intros k. unfold contains. by rewrite Hkeys.
Qed.

End IndexerClaims.

Section AnyIdentifierClaims.
Import PyDict AnyIdentifier AnyIdentifierFacts.
Context {mol_data Molecule E O K : Type} `{Countable K}.
Variable from_data : mol_data → result E Molecule.
Variable other_str : O → string.
Variable other_key : O → option K.



End AnyIdentifierClaims.

(** C8.  Two independent runs of [read_molecules] on the same input give the
    same keys and the same attributes dictionary.  Each run has its own
    empty dictionaries and counter, and the keys do not depend on what the
    toolkit builds from the molecule data: the two runs may even use
    different toolkits. *)
Theorem read_molecules_deterministic {mol_data Molecule1 Molecule2 E1 E2}
    (from_data1 : mol_data → result E1 Molecule1)
    (from_data2 : mol_data → result E2 Molecule2)
    (l : list (Optimization.mdata mol_data)) md1 ma1 md2 ma2 :
  Optimization.read_molecules from_data1 l = Ok (md1, ma1) →
  Optimization.read_molecules from_data2 l = Ok (md2, ma2) →
  PyDict.keys md1 = PyDict.keys md2 ∧ ma1 = ma2.
Proof.
  intros Hrun1 Hrun2.
  pose proof (OptimizationFacts.read_molecules_spec from_data1 l) as Hspec1.
  pose proof (OptimizationFacts.read_molecules_spec from_data2 l) as Hspec2.
  rewrite Hrun1 in Hspec1. rewrite Hrun2 in Hspec2.
  destruct Hspec1 as (qs1 & Hqs1 & -> & -> & _).
  destruct Hspec2 as (qs2 & Hqs2 & -> & -> & _).
  split; [|done]. unfold PyDict.keys.
  rewrite !fst_zip; [done|..];
    rewrite OptimizationFacts.length_expected_keys, !length_fmap.
  - by rewrite (Forall2_length _ _ _ Hqs2).
  - by rewrite (Forall2_length _ _ _ Hqs1).
Qed.

(** * The claims about loading and submission *)

(** C4.  When the JSON file is absent, the loader does not bring it into
    existence: [extractfile] returns a reader over the member and writes
    nothing, so the working directory is as before and no run returns a
    mapping.  With the archive and its member in place, the [open] that
    follows the extraction fails on the missing path. *)
Theorem loader_leaves_file_missing {Torsions : Type}
    (json_load : string → option Torsions) (fs : Torsion.filesystem) :
  Torsion.path_exists fs "coverage_selected_torsions.json" = false →
  (Torsion.load_selected_torsions json_load fs).1 = fs
  ∧ (∀ selected_torsions,
       (Torsion.load_selected_torsions json_load fs).2 ≠ Ok selected_torsions)
  ∧ (∀ members text,
       fs !! "coverage_selected_torsions.json.tar.gz"%string
       = Some (Torsion.TarGz members) →
       members !! "coverage_selected_torsions.json"%string = Some text →
       (Torsion.load_selected_torsions json_load fs).2
       = Raise (Torsion.FileNotFoundError "coverage_selected_torsions.json")).
Proof.
  intros Hmissing.
  unfold Torsion.load_selected_torsions. rewrite Hmissing.
  unfold Torsion.path_exists in Hmissing.
  apply bool_decide_eq_false in Hmissing.
  assert (fs !! "coverage_selected_torsions.json"%string = None) as Hnone.
  { destruct (fs !! "coverage_selected_torsions.json"%string) eqn:Hfs;
      [|done]. destruct Hmissing. by eexists. }
  assert (Torsion.read_selected_torsions json_load fs
            "coverage_selected_torsions.json"
          = Raise (Torsion.FileNotFoundError "coverage_selected_torsions.json"))
    as Hread.
  { unfold Torsion.read_selected_torsions, Torsion.open_text.
    by rewrite Hnone. }
  split_and!.
  - destruct (Torsion.tarfile_open fs _) as [f|e]; simpl; [|done].
    by destruct (Torsion.extractfile f _).
  - intros selected_torsions.
    destruct (Torsion.tarfile_open fs _) as [f|e]; simpl; [|done].
    destruct (Torsion.extractfile f _) as [text|e]; simpl; [|done].
    by rewrite Hread.
  - intros members text Harchive Hmember.
    unfold Torsion.tarfile_open. rewrite Harchive. simpl.
    unfold Torsion.extractfile. rewrite Hmember. simpl.
    by rewrite Hread.
Qed.

Section SubmissionClaims.
Import PyDict Remote RemoteFacts Torsion TorsionFacts.
Context {mol_data Molecule Geometry E : Type}.
Context `{!Toolkit mol_data Molecule Geometry E}.
Variable remote : service (td_entry mol_data).

(** C5.  For a record whose first molecule the toolkit builds, the
    connectivity check raises its assertion exactly when the number of
    inferred bonds plus 3 does not exceed the number of atoms.  The whole
    run then ends at once with that assertion: when the dataset was prepared
    and the records [pre] went through the loop, leaving the log [log], the
    script on [pre ++ (k, td) :: rest] ends with the log [log] and the
    assertion, so there is no [add_entry] for the record or for a later one,
    no [save] and no [compute].  When the check passes, the next call of the
    script is [add_entry] with the molecules of the record as they were
    loaded. *)
Theorem connectivity_check_aborts
    (pre : list (string * torsion_data mol_data)) (k : string)
    (td : torsion_data mol_data)
    (rest : list (string * torsion_data mol_data))
    (log0 log : list (event (td_entry mol_data))) (i : nat)
    (first : mol_data) (others : list mol_data) (molecule : Molecule) :
  initial_molecules td = first :: others →
  molecule_of_data first = Ok molecule →
  initialize_dataset (E:=E) remote [] = (log0, Ok ()) →
  add_torsions remote pre 0 log0 = (log, Ok i) →
  let conn := guess_connectivity (symbols molecule) (geometry molecule) in
  ((∃ c, check_connectivity (initial_molecules td)
         = Raise (ConnectivityAssertion c))
   ↔ length conn + 3 ≤ length (symbols molecule))
  ∧ (length conn + 3 ≤ length (symbols molecule) →
     (∀ j log1, add_torsions remote ((k, td) :: rest) j log1
                = (log1, Raise (ConnectivityAssertion conn)))
     ∧ submit_torsions remote (pre ++ (k, td) :: rest) []
       = (log, Raise (ConnectivityAssertion conn)))
  ∧ (¬ length conn + 3 ≤ length (symbols molecule) →
     let entry := TdEntry k (initial_molecules td) (atom_indices td)
                    (replicate (length (atom_indices td)) 15%Z)
                    (JFloat 5 (-2)) (attributes td) false in
     (∀ j log1, (add_torsions remote ((k, td) :: rest) j log1).1 !! length log1
                = Some (AddEntry entry, remote log1 (AddEntry entry)))
     ∧ (submit_torsions remote (pre ++ (k, td) :: rest) []).1 !! length log
       = Some (AddEntry entry, remote log (AddEntry entry))).
Proof.
  intros Hfirst Hmol Hinit Hpre conn.
  assert (check_connectivity (initial_molecules td)
          = if bool_decide (length (symbols molecule) < length conn + 3)
            then Ok () else Raise (ConnectivityAssertion conn)) as Hcheck.
  { unfold check_connectivity. by rewrite Hfirst, Hmol. }
  split_and!.
  - rewrite Hcheck. case_bool_decide; split.
    + by intros [c ?].
    + lia.
    + lia.
    + intros _. by exists conn.
  - intros Hle. rewrite bool_decide_eq_false_2 in Hcheck by lia.
    assert (∀ j log1, add_torsions remote ((k, td) :: rest) j log1
                      = (log1, Raise (ConnectivityAssertion conn))) as Hloop.
    { intros j log1. simpl. rewrite bind_run.
      by rewrite (add_torsion_check_fails _ _ _ _ _ _ Hcheck). }
    split; [done|].
    rewrite (submit_torsions_reaches _ _ _ _ _ _ Hinit Hpre).
    by rewrite bind_run, Hloop.
  - intros Hgt entry. rewrite bool_decide_eq_true_2 in Hcheck by lia.
    split.
    + intros j log1.
      pose proof (add_torsion_calls_add_entry remote k td j log1 Hcheck)
        as Hcall.
      assert ((log1 ++ [(AddEntry (entry_of_torsion k td),
                         remote log1 (AddEntry (entry_of_torsion k td)))])
              `prefix_of` (add_torsions remote ((k, td) :: rest) j log1).1)
        as Hall.
      { simpl. rewrite bind_run.
        destruct (add_torsion remote k td j log1) as [log2 [i2|e]];
          simpl in *.
        - etrans; [exact Hcall|apply add_torsions_extends].
        - done. }
      eapply prefix_lookup_Some; [|exact Hall].
      rewrite lookup_app_r by lia. by rewrite Nat.sub_diag.
    + exact (submit_torsions_next_call remote pre k td rest log0 i log
               Hinit Hpre Hcheck).
Qed.

(** C6.  The grid spacings of every [add_entry] call are made from the
    atom indices of the record the call is for: the call at position [p] is
    for the record at position [p] of the loaded mapping, its dihedrals are
    the atom indices of that record, and its grid spacings are one 15 per
    atom-index tuple of that record, so the two lists have the same length.
    No record is left out: a run that returns has made one call per record,
    and a record that is reached and passes the check is handed over next.
    A single record with atom indices [[0,1,2,3]] that passes the check is
    handed over exactly once, with grid spacings [15]. *)
Theorem grid_spacings_match_atom_indices
    (items : list (string * torsion_data mol_data)) :
  (∀ p e,
     added_entries (submit_torsions remote items []).1 !! p = Some e →
     ∃ k td,
       items !! p = Some (k, td)
       ∧ entry_dihedrals e = atom_indices td
       ∧ entry_grid_spacing e = replicate (length (atom_indices td)) 15%Z
       ∧ length (entry_grid_spacing e) = length (atom_indices td))
  ∧ (∀ log comp,
       submit_torsions remote items [] = (log, Ok comp) →
       length (added_entries log) = length items)
  ∧ (∀ pre k td rest log0 i log,
       items = pre ++ (k, td) :: rest →
       initialize_dataset (E:=E) remote [] = (log0, Ok ()) →
       add_torsions remote pre 0 log0 = (log, Ok i) →
       check_connectivity (initial_molecules td) = Ok () →
       ∃ r, (submit_torsions remote items []).1 !! length log
            = Some (AddEntry (TdEntry k (initial_molecules td)
                                (atom_indices td)
                                (replicate (length (atom_indices td)) 15%Z)
                                (JFloat 5 (-2)) (attributes td) false), r))
  ∧ (∀ k td,
       items = [(k, td)] →
       atom_indices td = [[0; 1; 2; 3]%Z] →
       check_connectivity (initial_molecules td) = Ok () →
       (initialize_dataset (E:=E) remote []).2 = Ok () →
       added_entries (submit_torsions remote items []).1
       = [TdEntry k (initial_molecules td) [[0; 1; 2; 3]%Z] [15%Z]
            (JFloat 5 (-2)) (attributes td) false]).
Proof.
  split_and!.
  - intros p e Hp.
    destruct (submit_torsions_log remote items) as [Hpre _].
    eapply prefix_lookup_Some in Hp; [|exact Hpre].
    apply list_lookup_fmap_Some in Hp as ([k td] & -> & Hitem).
    exists k, td. simpl. split_and!; [done|done|done|apply length_replicate].
  - intros log comp Hrun.
    destruct (submit_torsions_log remote items) as [_ Hok].
    rewrite Hrun in Hok. destruct (Hok comp eq_refl) as [Hall _].
    simpl in Hall. by rewrite Hall, length_fmap.
  - intros pre k td rest log0 i log -> Hinit Hpre Hcheck.
    eexists.
    exact (submit_torsions_next_call remote pre k td rest log0 i log
             Hinit Hpre Hcheck).
  - intros k td Hitems Hidx Hcheck Hinit.
    unfold submit_torsions. rewrite bind_run.
    destruct (initialize_dataset_log (E:=E) remote []) as (Hent0 & _ & _).
    destruct (initialize_dataset remote []) as [log0 [[]|e]];
      simpl in *; [|done].
    rewrite bind_run.
    assert (added_entries (add_torsions remote items 0 log0).1
            = [entry_of_torsion k td]) as Hone.
    { rewrite Hitems.
      destruct (add_torsions_log remote [(k, td)] 0 log0)
        as (sent & n & Hsent & [more' Hpre] & _).
      pose proof (add_torsion_calls_add_entry remote k td 0 log0 Hcheck)
        as [more Hmore].
      assert (log0 ++ [(AddEntry (entry_of_torsion k td),
                        remote log0 (AddEntry (entry_of_torsion k td)))]
              `prefix_of` (add_torsions remote [(k, td)] 0 log0).1)
        as [tail Htail].
      { simpl. rewrite bind_run.
        destruct (add_torsion remote k td 0 log0) as [log1 [i1|e]];
          simpl in *; by exists more. }
      rewrite Hsent, Hent0. simpl.
      rewrite Htail, !added_entries_app, Hent0 in Hsent. simpl in Hsent.
      destruct sent as [|x [|y sent]]; simplify_eq/=; done. }
    destruct (add_torsions remote items 0 log0) as [log1 [i1|e]];
      simpl in *.
    + destruct (finish_log (E:=E) remote log1) as (-> & _).
      rewrite Hone. unfold entry_of_torsion. by rewrite Hidx.
    + rewrite Hone. unfold entry_of_torsion. by rewrite Hidx.
Qed.

End SubmissionClaims.

Section BothPipelines.
Import PyDict Remote RemoteFacts.
Import Optimization OptimizationFacts SubmitterFacts.
Context {mol_data Molecule Geometry E : Type}.
Context `{!Torsion.Toolkit mol_data Molecule Geometry E}.
Variable remote : service (Torsion.td_entry mol_data).
Context {opt_data OptMolecule OptE : Type}.
Variable from_data : opt_data → result OptE OptMolecule.
Variable opt_remote : service (opt_entry OptMolecule).

(** C2, as the code has it.  In the entry loop of the torsion script, an
    [add_entry] that raises a KeyError is skipped: the counter keeps its
    value, nothing is saved, and the loop goes on with the next record; any
    other exception ends the run.  This holds of the loop and of the script:
    when the dataset was prepared and the records [pre] went through the
    loop, leaving the log [log] and the counter [i], the script on
    [pre ++ (k, td) :: rest] goes on after a KeyError with the records
    [rest], the counter [i] and the last two calls, and ends after any other
    exception with that exception and the refused call as the last one.  The
    loop of [create_optimization_dataset] has no handler: whatever
    [add_entry] raises, a KeyError included, ends the loop, the function and
    [main] with that exception and the refused call as the last one, so the
    items after it are not handed over and [compute] is not called. *)
Theorem add_entry_errors :
  (∀ (k : string) (td : Torsion.torsion_data mol_data)
     (rest : list (string * Torsion.torsion_data mol_data)) (i : nat)
     (log : list (event (Torsion.td_entry mol_data))) (e : py_exn),
     Torsion.check_connectivity (Torsion.initial_molecules td) = Ok () →
     remote log (AddEntry (Torsion.entry_of_torsion k td)) = Raise e →
     Torsion.add_torsions remote ((k, td) :: rest) i log
     = (let log' :=
          log ++ [(AddEntry (Torsion.entry_of_torsion k td), Raise e)] in
        match e with
        | KeyError _ => Torsion.add_torsions remote rest i log'
        | OtherError _ _ => (log', Raise (Torsion.RemoteRaised e))
        end))
  ∧ (∀ (pre : list (string * Torsion.torsion_data mol_data)) (k : string)
       (td : Torsion.torsion_data mol_data)
       (rest : list (string * Torsion.torsion_data mol_data))
       (log0 log : list (event (Torsion.td_entry mol_data))) (i : nat)
       (e : py_exn),
       Torsion.initialize_dataset (E:=E) remote [] = (log0, Ok ()) →
       Torsion.add_torsions remote pre 0 log0 = (log, Ok i) →
       Torsion.check_connectivity (Torsion.initial_molecules td) = Ok () →
       remote log (AddEntry (Torsion.entry_of_torsion k td)) = Raise e →
       Torsion.submit_torsions remote (pre ++ (k, td) :: rest) []
       = (let log' :=
            log ++ [(AddEntry (Torsion.entry_of_torsion k td), Raise e)] in
          match e with
          | KeyError _ =>
              (Torsion.add_torsions remote rest i
               ≫= λ _, Torsion.finish remote) log'
          | OtherError _ _ => (log', Raise (Torsion.RemoteRaised e))
          end))
  ∧ (∀ (item : string * OptMolecule) (rest : list (string * OptMolecule))
       (molecule_attributes : dict attribute_map)
       (log : list (event (opt_entry OptMolecule))) (e : py_exn),
       opt_remote log (AddEntry (entry_of_item molecule_attributes item))
       = Raise e →
       add_molecules opt_remote (item :: rest) molecule_attributes log
       = (log ++ [(AddEntry (entry_of_item molecule_attributes item),
                   Raise e)],
          Raise e))
  ∧ (∀ (pre : list (string * OptMolecule)) (item : string * OptMolecule)
       (rest : list (string * OptMolecule))
       (client_config_file dataset_name qm_method qm_basis spec_name : string)
       (molecule_attributes : dict attribute_map)
       (log : list (event (opt_entry OptMolecule))) (e : py_exn)
       (start_compute : bool),
       create_optimization_dataset opt_remote pre client_config_file
         dataset_name qm_method qm_basis spec_name molecule_attributes
         false [] = (log, Ok ()) →
       opt_remote log (AddEntry (entry_of_item molecule_attributes item))
       = Raise e →
       create_optimization_dataset opt_remote (pre ++ item :: rest)
         client_config_file dataset_name qm_method qm_basis spec_name
         molecule_attributes start_compute []
       = (log ++ [(AddEntry (entry_of_item molecule_attributes item),
                   Raise e)],
          Raise e))
  ∧ (∀ (l : list (mdata opt_data)) (pre : list (string * OptMolecule))
       (item : string * OptMolecule) (rest : list (string * OptMolecule))
       (molecule_attributes : dict attribute_map)
       (dataset_name client_config qm_method qm_basis : string)
       (log : list (event (opt_entry OptMolecule))) (e : py_exn)
       (start : bool),
       read_molecules from_data l
       = Ok (pre ++ item :: rest, molecule_attributes) →
       create_optimization_dataset opt_remote pre client_config
         dataset_name qm_method qm_basis "default" molecule_attributes
         false [] = (log, Ok ()) →
       opt_remote log (AddEntry (entry_of_item molecule_attributes item))
       = Raise e →
       main from_data opt_remote l dataset_name client_config qm_method
         qm_basis start
       = (log ++ [(AddEntry (entry_of_item molecule_attributes item),
                   Raise e)],
          Raise (Submitting e))).
Proof.
  assert (∀ (k : string) (td : Torsion.torsion_data mol_data)
            (rest : list (string * Torsion.torsion_data mol_data)) (i : nat)
            (log : list (event (Torsion.td_entry mol_data))) (e : py_exn),
     Torsion.check_connectivity (Torsion.initial_molecules td) = Ok () →
     remote log (AddEntry (Torsion.entry_of_torsion k td)) = Raise e →
     Torsion.add_torsions remote ((k, td) :: rest) i log
     = (let log' :=
          log ++ [(AddEntry (Torsion.entry_of_torsion k td), Raise e)] in
        match e with
        | KeyError _ => Torsion.add_torsions remote rest i log'
        | OtherError _ _ => (log', Raise (Torsion.RemoteRaised e))
        end)) as Hloop.
  { intros k td rest i log e Hcheck Hr.
    simpl. rewrite bind_run. destruct e as [msg|cls msg].
    - by rewrite (TorsionFacts.add_torsion_duplicate _ _ _ _ _ _ Hcheck Hr).
    - by rewrite (TorsionFacts.add_torsion_other_error _ _ _ _ _ _ _ Hcheck Hr). }
  assert (∀ (pre : list (string * OptMolecule)) (item : string * OptMolecule)
            (rest : list (string * OptMolecule))
            (client_config_file dataset_name qm_method qm_basis
               spec_name : string)
            (molecule_attributes : dict attribute_map)
            (log : list (event (opt_entry OptMolecule))) (e : py_exn)
            (start_compute : bool),
       create_optimization_dataset opt_remote pre client_config_file
         dataset_name qm_method qm_basis spec_name molecule_attributes
         false [] = (log, Ok ()) →
       opt_remote log (AddEntry (entry_of_item molecule_attributes item))
       = Raise e →
       create_optimization_dataset opt_remote (pre ++ item :: rest)
         client_config_file dataset_name qm_method qm_basis spec_name
         molecule_attributes start_compute []
       = (log ++ [(AddEntry (entry_of_item molecule_attributes item),
                   Raise e)],
          Raise e)) as Hcreate.
  { intros pre item rest cfg name m b spec ma log e start Hpre Hr.
    rewrite (create_optimization_dataset_reaches _ _ _ _ _ _ _ _ _ _ _ Hpre).
    by rewrite bind_run, (add_molecules_raise _ _ _ _ _ _ Hr). }
  split_and!.
  - exact Hloop.
  - intros pre k td rest log0 log i e Hinit Hpre Hcheck Hr.
    rewrite (TorsionFacts.submit_torsions_reaches _ _ _ _ _ _ Hinit Hpre).
    rewrite bind_run, (Hloop _ _ _ _ _ _ Hcheck Hr). cbv zeta.
    destruct e as [msg|cls msg]; [|done]. by rewrite <-bind_run.
  - intros item rest molecule_attributes log e Hr.
    by apply add_molecules_raise.
  - exact Hcreate.
  - intros l pre item rest ma name cfg m b log e start Hread Hpre Hr.
    unfold main. rewrite Hread.
    by rewrite (Hcreate _ _ _ _ _ _ _ _ _ _ _ start Hpre Hr).
Qed.

(** C3, as the code has it.  A run of the torsion script that reaches its
    end has saved after the 30th, 60th, ... successful addition and nowhere
    else inside the loop, and once more after the loop: [n] additions make
    [n / 30 + 1] saves.  [create_optimization_dataset] never calls
    [save]. *)
Theorem saves_every_30_additions :
  (∀ (items : list (string * Torsion.torsion_data mol_data))
     (log : list (event (Torsion.td_entry mol_data))) (comp : json),
     Torsion.submit_torsions remote items [] = (log, Ok comp) →
     marks log = save_pattern (additions log) ++ [Saved]
     ∧ saves log = additions log `div` 30 + 1)
  ∧ (∀ (molecules_dict : dict OptMolecule)
       (client_config_file dataset_name qm_method qm_basis spec_name : string)
       (molecule_attributes : dict attribute_map) (start_compute : bool),
       saves (create_optimization_dataset opt_remote molecules_dict
                client_config_file dataset_name qm_method qm_basis spec_name
                molecule_attributes start_compute []).1 = 0).
Proof.
  split.
  - intros items log comp Hrun.
    destruct (TorsionFacts.submit_torsions_log remote items) as [_ Hok].
    rewrite Hrun in Hok. destruct (Hok comp eq_refl) as [_ Hmarks].
    simpl in Hmarks. split; [done|].
    rewrite saves_marks, Hmarks, filter_app, length_app.
    by rewrite saved_in_save_pattern.
  - intros. apply create_optimization_dataset_log.
Qed.

(** C9, as the code has it.  In the torsion script the call for a record carries its key, its initial molecules, its
    atom indices and its attributes as they are in the loaded mapping.  In
    the optimization script the call for a molecule carries the object the
    toolkit built from the loaded molecule data and the
    [cmiles_identifiers] of its record. *)
Theorem inputs_passed_unchanged :
  (∀ (items : list (string * Torsion.torsion_data mol_data)) (p : nat)
     (e : Torsion.td_entry mol_data),
     added_entries (Torsion.submit_torsions remote items []).1 !! p = Some e →
     ∃ k td,
       items !! p = Some (k, td)
       ∧ Torsion.entry_name e = k
       ∧ Torsion.entry_initial_molecules e = Torsion.initial_molecules td
       ∧ Torsion.entry_dihedrals e = Torsion.atom_indices td
       ∧ Torsion.entry_attributes e = Torsion.attributes td)
  ∧ (∀ (l : list (mdata opt_data))
       (dataset_name client_config qm_method qm_basis : string) (start : bool)
       (p : nat) (e : opt_entry OptMolecule),
       added_entries (main from_data opt_remote l dataset_name client_config
                        qm_method qm_basis start).1 !! p = Some e →
       ∃ md m,
         md ∈ l ∧ m ∈ initial_molecules md
         ∧ (∃ b, encounters l !! p = Some (b, cmiles_identifiers md, m))
         ∧ from_data m = Ok (entry_molecule e)
         ∧ entry_attributes e = cmiles_identifiers md).
Proof.
  split.
  - intros items p e Hp.
    destruct (TorsionFacts.submit_torsions_log remote items) as [Hpre _].
    eapply prefix_lookup_Some in Hp; [|exact Hpre].
    apply list_lookup_fmap_Some in Hp as ([k td] & -> & Hitem).
    by exists k, td.
  - intros l dataset_name client_config qm_method qm_basis start p e Hp.
    apply main_added_entries in Hp as (b & cm & m & Hx & Hm & Hattr & _).
    assert ((b, cm, m) ∈ encounters l) as Hin
      by by eapply list_elem_of_lookup_2.
    apply elem_of_encounters in Hin as (md & Hmd & _ & -> & Hmol).
    exists md, m. split_and!; [done|done|by exists b|done|done].
Qed.

End BothPipelines.

(** * The claims on concrete runs *)

Module Runs.
Import PyDict Remote Examples.

(** C2, as first stated, fails on the optimization script: with a service
    that refuses every entry as a duplicate, the first refusal ends the run
    with the KeyError, and the other three molecules are never handed
    over. *)
Lemma optimization_duplicate_key_aborts :
  let run := Optimization.main from_data reject_entries optimization_input
               "dataset" "client.yaml" "b3lyp-d3bj" "dzvp" false in
  run.2 = Raise (Optimization.Submitting (KeyError "duplicate"))
  ∧ added_entries run.1
    = [Optimization.OptEntry "CCO-0" (Built "ethanol a") cco_ids]
  ∧ length (added_entries run.1)
    ≠ length (Optimization.encounters optimization_input).
Proof. vm_compute. split_and!; [done|done|lia]. Qed.

(** C3, as first stated, fails on the optimization script: a run that adds
    four entries and computes ends without a single [save]. *)
Lemma optimization_run_never_saves :
  let run := Optimization.main from_data accept_all optimization_input
               "dataset" "client.yaml" "b3lyp-d3bj" "dzvp" true in
  run.2 = Ok () ∧ additions run.1 = 4 ∧ saves run.1 = 0.
Proof. vm_compute. done. Qed.

(** The example input has its identifiers, and [from_data] accepts its
    molecules. *)
Lemma optimization_input_well_formed :
  Optimization.well_formed from_data optimization_input.
Proof.
  unfold Optimization.well_formed, optimization_input.
  repeat (apply List.Forall_cons || apply List.Forall_nil
          || (eexists; reflexivity) || split).
Defined.







(** C7 on the example input: the run returns [indexed_molecules] and
    [indexed_attributes]. *)
Lemma read_molecules_same_keys_witness :
  keys indexed_molecules = keys indexed_attributes
  ∧ ∀ k, contains k indexed_molecules = contains k indexed_attributes.
Proof.
  apply (read_molecules_same_keys from_data optimization_input).
  vm_compute. reflexivity.
Defined.

(** C8 on the example input, one run with each toolkit. *)
Lemma read_molecules_deterministic_witness :
  keys indexed_molecules = keys indexed_lengths
  ∧ indexed_attributes = indexed_attributes.
Proof.
  apply (read_molecules_deterministic from_data from_data_length
           optimization_input).
  - vm_compute. reflexivity.
  - vm_compute. reflexivity.
Defined.

(** C2 on three runs.  The torsion script whose first [add_entry] is
    refused as a duplicate goes on with the second record and the counter
    still at 0; the torsion script that loses its connection at the first
    [add_entry] ends there; [main] of the optimization script ends at the
    first refused duplicate, with one of four molecules handed over and
    without [compute]. *)
Lemma add_entry_errors_witness :
  Torsion.submit_torsions reject_entries
    [("rot_1"%string, rot_1); ("rot_1b"%string, rot_1)] []
  = (Torsion.add_torsions reject_entries [("rot_1b"%string, rot_1)] 0
     ≫= λ _, Torsion.finish (E:=string) reject_entries)
      (prepared_torsions
       ++ [(AddEntry (Torsion.entry_of_torsion "rot_1" rot_1),
            Raise (KeyError "duplicate"))])
  ∧ Torsion.submit_torsions connection_lost
      [("rot_1"%string, rot_1); ("rot_1b"%string, rot_1)] []
    = (prepared_torsions
       ++ [(AddEntry (Torsion.entry_of_torsion "rot_1" rot_1),
            Raise (OtherError "ConnectionError" "connection lost"))],
       Raise (Torsion.RemoteRaised
                (OtherError "ConnectionError" "connection lost")))
  ∧ Optimization.main from_data reject_entries optimization_input
      "dataset" "client.yaml" "b3lyp-d3bj" "dzvp" true
    = (prepared_optimization
       ++ [(AddEntry (Optimization.OptEntry "CCO-0" (Built "ethanol a")
                        cco_ids),
            Raise (KeyError "duplicate"))],
       Raise (Optimization.Submitting (KeyError "duplicate"))).
Proof.
  destruct (add_entry_errors
              (reject_entries (Entry:=Torsion.td_entry atoms_and_bonds))
              from_data
              (reject_entries (Entry:=Optimization.opt_entry built_molecule)))
    as (_ & Hskip & _ & _ & Hmain).
  destruct (add_entry_errors
              (connection_lost (Entry:=Torsion.td_entry atoms_and_bonds))
              from_data
              (connection_lost (Entry:=Optimization.opt_entry built_molecule)))
    as (_ & Hlost & _).
  split_and!.
  - apply (Hskip [] "rot_1"%string rot_1 [("rot_1b"%string, rot_1)]
             prepared_torsions prepared_torsions 0 (KeyError "duplicate"));
      reflexivity.
  - apply (Hlost [] "rot_1"%string rot_1 [("rot_1b"%string, rot_1)]
             prepared_torsions prepared_torsions 0
             (OtherError "ConnectionError" "connection lost"));
      reflexivity.
  - apply (Hmain optimization_input [] ("CCO-0"%string, Built "ethanol a")
             [ ("CCO-1"%string, Built "ethanol b");
               ("CC-0"%string, Built "ethane");
               ("CCO-2"%string, Built "ethanol c") ]
             indexed_attributes "dataset"%string "client.yaml"%string
             "b3lyp-d3bj"%string "dzvp"%string prepared_optimization
             (KeyError "duplicate") true);
      reflexivity.
Defined.

(** C3 on thirty-one records: one [save] after the 30th addition and one at
    the end. *)
Lemma saves_every_30_additions_witness :
  let log := (Torsion.submit_torsions accept_all thirty_one_torsions []).1 in
  (marks log = save_pattern (additions log) ++ [Saved]
   ∧ saves log = additions log `div` 30 + 1)
  ∧ additions log = 31 ∧ saves log = 2.
Proof.
  split.
  - apply (proj1 (saves_every_30_additions
                    (accept_all (Entry:=Torsion.td_entry atoms_and_bonds))
                    (accept_all (Entry:=Optimization.opt_entry built_molecule)))
             thirty_one_torsions _ JNull).
    vm_compute. reflexivity.
  - vm_compute. done.
Defined.

(** C5 on three records of which the second is fragmented (4 bonds, 8
    atoms): the run ends with the assertion after the [add_entry] of the
    first record, without [save] and without [compute], and the third record
    is never handed over. *)
Lemma connectivity_check_aborts_witness :
  Torsion.submit_torsions accept_all
    [("rot_1"%string, rot_1); ("rot_2"%string, rot_2);
     ("rot_3"%string, rot_3)] []
  = (prepared_torsions
     ++ [(AddEntry (Torsion.entry_of_torsion "rot_1" rot_1), Ok JNull)],
     Raise (Torsion.ConnectivityAssertion (bonds fragments))).
Proof.
  destruct (connectivity_check_aborts (Toolkit0:=listed_bonds) accept_all
              [("rot_1"%string, rot_1)] "rot_2" rot_2
              [("rot_3"%string, rot_3)] prepared_torsions
              (prepared_torsions
               ++ [(AddEntry (Torsion.entry_of_torsion "rot_1" rot_1),
                    Ok JNull)])
              1 fragments [] fragments)
    as (_ & Habort & _); [reflexivity..|].
  apply Habort. simpl. lia.
Defined.

(** C6 on two records: the second call is for the second record, which has
    two atom-index tuples, and carries two grid spacings; and on the single
    record [rot_1]. *)
Lemma grid_spacings_match_atom_indices_witness :
  (∃ k td,
     [("rot_1"%string, rot_1); ("rot_3"%string, rot_3)] !! 1 = Some (k, td)
     ∧ [[0; 1; 2; 3]%Z; [1; 0; 2; 3]%Z] = Torsion.atom_indices td
     ∧ [15%Z; 15%Z] = replicate (length (Torsion.atom_indices td)) 15%Z
     ∧ 2 = length (Torsion.atom_indices td))
  ∧ added_entries (Torsion.submit_torsions accept_all
                     [("rot_1"%string, rot_1)] []).1
    = [Torsion.TdEntry "rot_1" [ethane] [[0; 1; 2; 3]%Z] [15%Z]
         (JFloat 5 (-2))
         {[ "canonical_isomeric_smiles"%string := "CC"%string ]} false].
Proof.
  split.
  - apply (proj1 (grid_spacings_match_atom_indices accept_all
                    [("rot_1"%string, rot_1); ("rot_3"%string, rot_3)])
             1 (Torsion.TdEntry "rot_3" [ethane]
                  [[0; 1; 2; 3]%Z; [1; 0; 2; 3]%Z] [15%Z; 15%Z]
                  (JFloat 5 (-2))
                  {[ "canonical_isomeric_smiles"%string := "CC"%string ]}
                  false)).
    vm_compute. reflexivity.
  - apply (proj2 (proj2 (proj2 (grid_spacings_match_atom_indices accept_all
                                  [("rot_1"%string, rot_1)])))
             "rot_1"%string rot_1); reflexivity.
Defined.

(** C9 on the first torsion entry and on the third optimization entry. *)
Lemma inputs_passed_unchanged_witness :
  (∃ k td,
     [("rot_1"%string, rot_1)] !! 0 = Some (k, td)
     ∧ "rot_1"%string = k
     ∧ [ethane] = Torsion.initial_molecules td
     ∧ [[0; 1; 2; 3]%Z] = Torsion.atom_indices td
     ∧ ({[ "canonical_isomeric_smiles"%string := "CC"%string ]} : attribute_map)
       = Torsion.attributes td)
  ∧ (∃ md m,
       md ∈ optimization_input ∧ m ∈ Optimization.initial_molecules md
       ∧ (∃ b, Optimization.encounters optimization_input !! 2
               = Some (b, Optimization.cmiles_identifiers md, m))
       ∧ from_data m = Ok (Built "ethane")
       ∧ cc_ids = Optimization.cmiles_identifiers md).
Proof.
  destruct (inputs_passed_unchanged
              (accept_all (Entry:=Torsion.td_entry atoms_and_bonds))
              from_data
              (accept_all (Entry:=Optimization.opt_entry built_molecule)))
    as [Htorsion Hopt].
  split.
  - apply (Htorsion [("rot_1"%string, rot_1)] 0
             (Torsion.entry_of_torsion "rot_1" rot_1)).
    vm_compute. reflexivity.
  - apply (Hopt optimization_input "dataset"%string "client.yaml"%string
             "b3lyp-d3bj"%string "dzvp"%string false 2
             (Optimization.OptEntry "CC-0" (Built "ethane") cc_ids)).
    vm_compute. reflexivity.
Defined.

(** C9, as first stated, fails on the optimization script: what reaches
    [add_entry] is the object the toolkit built, not the molecule data as
    loaded. *)
Lemma optimization_passes_built_molecule :
  let run := Optimization.main from_data_canonical accept_all
               optimization_input "dataset" "client.yaml" "b3lyp-d3bj" "dzvp"
               false in
  Optimization.encounters optimization_input !! 0
  = Some ("CCO"%string, cco_ids, "ethanol a"%string)
  ∧ Optimization.entry_molecule <$> added_entries run.1 !! 0
    = Some "Ethanol a"%string
  ∧ "Ethanol a"%string ≠ "ethanol a"%string.
Proof. vm_compute. split_and!; [done|done|discriminate]. Qed.

(** C4 on a working directory with the archive only. *)
Lemma loader_leaves_file_missing_witness :
  (Torsion.load_selected_torsions (λ _ : string, Some ()) archive_only).2
  = Raise (Torsion.FileNotFoundError "coverage_selected_torsions.json").
Proof.
  destruct (loader_leaves_file_missing (λ _ : string, Some ()) archive_only)
    as (_ & _ & Hopen); [reflexivity|].
  apply (Hopen {[ "coverage_selected_torsions.json"%string := "{}"%string ]}
           "{}"%string); reflexivity.
Defined.

End Runs.

(** * Further properties of the indexer *)

Module IndexerProperties.
Import PyDict PyDictFacts Optimization OptimizationFacts.

Section Indexer.
Context {mol_data Molecule E : Type}.
Variable from_data : mol_data → result E Molecule.

(** The loops run over a concatenation as over its parts, one after the
    other. *)
Lemma index_conformers_app index cmiles_ids (ms1 ms2 : list mol_data) st :
  index_conformers from_data index cmiles_ids (ms1 ++ ms2) st
  = index_conformers from_data index cmiles_ids ms1 st
    ≫= index_conformers from_data index cmiles_ids ms2.
Proof.
  revert st. induction ms1 as [|m ms1 IH]; intros st; simpl; [done|].
  destruct (index_conformer from_data index cmiles_ids m st) as [st'|e];
    simpl; [apply IH|done].
Qed.

Lemma index_records_app (l1 l2 : list (mdata mol_data)) st :
  index_records from_data (l1 ++ l2) st
  = index_records from_data l1 st ≫= index_records from_data l2.
Proof.
  revert st. induction l1 as [|md l1 IH]; intros st; simpl; [done|].
  destruct (index_record from_data md st) as [st'|e]; simpl; [apply IH|done].
Qed.

(** After a well-formed prefix the loop is in a state that satisfies the
    invariant. *)
Lemma index_records_well_formed (l : list (mdata mol_data)) :
  well_formed from_data l →
  ∃ st tags qs,
    index_records from_data l (IndexState [] [] ∅) = Ok st
    ∧ indexed st tags qs.
Proof.
  intros Hwf.
  pose proof (index_records_spec from_data l _ _ _ indexed_init) as Hspec.
  destruct (index_records from_data l (IndexState [] [] ∅)) as [st|e].
  - destruct Hspec as (qs & _ & Hst & _). by eauto.
  - by destruct Hspec as [_ []].
Qed.

(** All records have their identifier: the encounters are the molecules of
    the records, record after record. *)
Lemma length_encounters (l : list (mdata mol_data)) :
  Forall (λ md, is_Some (base_of md)) l →
  length (encounters l) = sum_list_with (λ md, length (initial_molecules md)) l.
Proof.
  induction 1 as [|md l [index Hbase] _ IH]; simpl; [done|].
  rewrite Hbase, length_app, length_fmap, IH. done.
Qed.


(** X2.  A record without the key [canonical_isomeric_smiles] makes
    [read_molecules] raise the KeyError of the lookup when the records before
    it are in order, whatever follows, and also when the record has no
    molecule at all: the lookup comes before the loop over the molecules. *)
Theorem read_molecules_missing_identifier (l1 l2 : list (mdata mol_data))
    (md : mdata mol_data) :
  well_formed from_data l1 →
  cmiles_identifiers md !! "canonical_isomeric_smiles"%string = None →
  read_molecules from_data (l1 ++ md :: l2) = Raise MissingIdentifier.
Proof.
  intros Hwf Hbase. unfold read_molecules. rewrite index_records_app.
  destruct (index_records_well_formed l1 Hwf) as (st & tags & qs & -> & _).
  simpl. unfold index_record. by rewrite Hbase.
Qed.

(** X3.  The first molecule that [Molecule.from_data] rejects ends
    [read_molecules] with the exception of the toolkit: the records and the
    conformers before it are in order, what follows is not looked at. *)
Theorem read_molecules_first_rejected (l1 l2 : list (mdata mol_data))
    (md : mdata mol_data) (index : string) (ms1 ms2 : list mol_data)
    (m : mol_data) (e : E) :
  well_formed from_data l1 →
  cmiles_identifiers md !! "canonical_isomeric_smiles"%string = Some index →
  initial_molecules md = ms1 ++ m :: ms2 →
  Forall (constructible from_data) ms1 →
  from_data m = Raise e →
  read_molecules from_data (l1 ++ md :: l2) = Raise (FromDataError e).
Proof.
  intros Hwf Hbase Hmols Hms1 Hm. unfold read_molecules.
  rewrite index_records_app.
  destruct (index_records_well_formed l1 Hwf) as (st & tags & qs & -> & Hst).
  simpl. unfold index_record. rewrite Hbase, Hmols, index_conformers_app.
  pose proof (index_conformers_spec from_data index (cmiles_identifiers md)
                ms1 _ _ _ Hst) as Hspec.
  destruct (index_conformers from_data index (cmiles_identifiers md) ms1 st)
    as [st'|e']; [|by destruct Hspec as [_ []]].
  simpl. unfold index_conformer. by rewrite Hm.
Qed.

(** X4.  Looking a derived key up in the returned dictionaries gives back
    what was stored under it: the molecule built from the encounter at that
    position, and the [cmiles_identifiers] of its record. *)
Theorem read_molecules_lookup (l : list (mdata mol_data))
    (md : dict Molecule) (ma : dict attribute_map)
    (p : nat) (b : string) (cmiles_ids : attribute_map) (m : mol_data) :
  read_molecules from_data l = Ok (md, ma) →
  encounters l !! p = Some (b, cmiles_ids, m) →
  ∃ q, from_data m = Ok q
       ∧ get (nth_key (encounters l).*1.*1 p b) md = Some q
       ∧ get (nth_key (encounters l).*1.*1 p b) ma = Some cmiles_ids.
Proof.
  intros Hrun Hp. pose proof (read_molecules_spec from_data l) as Hspec.
  rewrite Hrun in Hspec. destruct Hspec as (qs & Hqs & -> & -> & _).
  destruct (Forall2_lookup_l _ _ _ _ _ Hqs Hp) as (q & Hq & Hm).
  assert ((encounters l).*1.*1 !! p = Some b) as Hb
    by by rewrite !list_lookup_fmap, Hp.
  exists q. split_and!; [done|..].
  - eapply get_zip_lookup;
      [apply NoDup_expected_keys|by apply lookup_expected_keys|done].
  - eapply get_zip_lookup;
      [apply NoDup_expected_keys|by apply lookup_expected_keys|].
    by rewrite !list_lookup_fmap, Hp.
Qed.

(** X5.  The returned dictionaries have one entry per molecule of the input:
    their size is the sum of the numbers of [initial_molecules] of the
    records, so a record without molecules adds nothing. *)
Theorem read_molecules_size (l : list (mdata mol_data))
    (md : dict Molecule) (ma : dict attribute_map) :
  read_molecules from_data l = Ok (md, ma) →
  length md = sum_list_with (λ r, length (initial_molecules r)) l
  ∧ length ma = sum_list_with (λ r, length (initial_molecules r)) l.
Proof.
  intros Hrun. pose proof (read_molecules_spec from_data l) as Hspec.
  rewrite Hrun in Hspec. destruct Hspec as (qs & Hqs & -> & -> & Hwf).
  rewrite <-length_encounters
    by (eapply Forall_impl; [exact Hwf|by intros ? [? _]]).
  rewrite !length_zip_with, !length_expected_keys, !length_fmap.
  rewrite <-(Forall2_length _ _ _ Hqs). lia.
Qed.


End Indexer.

Section AnyIdentifier.
Import AnyIdentifier AnyIdentifierFacts.
Context {mol_data Molecule E O K : Type} `{Countable K}.
Variable from_data : mol_data → result E Molecule.
Variable other_str : O → string.
Variable other_key : O → option K.


End AnyIdentifier.

End IndexerProperties.


(** * Further properties of [create_optimization_dataset] and [main] *)

Module SubmitterProperties.
Import PyDict PyDictFacts Remote RemoteFacts.
Import Optimization OptimizationFacts SubmitterFacts.

(** The entry of a call, when the call is [add_entry]. *)
Definition entry_of_call {Entry} (c : call Entry) : option Entry :=
  match c with
  | AddEntry e => Some e
  | _ => None
  end.

(** The calls of a run of [create_optimization_dataset] on which nothing
    raises, in order. *)
Definition expected_calls {Molecule} (molecules_dict : dict Molecule)
    (client_config_file dataset_name qm_method qm_basis spec_name : string)
    (molecule_attributes : dict attribute_map) (start_compute : bool)
    : list (call (opt_entry Molecule)) :=
  [ FromFile (Some client_config_file);
    NewDataset OptimizationDataset dataset_name;
    AddSpecification spec_name opt_spec (qc_spec qm_method qm_basis) None ]
  ++ ((λ item, AddEntry (entry_of_item molecule_attributes item))
      <$> molecules_dict)
  ++ (if start_compute then [Compute spec_name None] else []).

Lemma added_entries_calls {Entry} (log : list (event Entry)) :
  added_entries log = omap entry_of_call log.*1.
Proof.
  unfold added_entries.
  induction log as [|[c r] log IH]; [done|].
  destruct c; simpl; try f_equal; exact IH.
Qed.

(** [d.get(k)] on a key that is not in the dictionary. *)
Lemma get_absent {V} (k : string) (d : dict V) :
  k ∉ keys d → get k d = None.
Proof.
  unfold keys. induction d as [|[k' v'] d IH]; simpl; [done|].
  intros [Hne Hk]%not_elem_of_cons. rewrite decide_False by done. auto.
Qed.

Lemma omap_add_entry {A Entry} (f : A → Entry) (l : list A) :
  omap entry_of_call ((λ x, AddEntry (f x)) <$> l) = f <$> l.
Proof. induction l as [|x l IH]; [done|]. simpl. f_equal. exact IH. Qed.

Section Submitter.
Context {Molecule : Type}.
Variable remote : service (opt_entry Molecule).

(** The calls of the loop: one [add_entry] per item, in order, up to the
    first that raises, which is the last event then. *)
Lemma add_molecules_calls (items : list (string * Molecule))
    (molecule_attributes : dict attribute_map)
    (log : list (event (opt_entry Molecule))) :
  match (add_molecules remote items molecule_attributes log).2 with
  | Ok _ =>
      (add_molecules remote items molecule_attributes log).1.*1
      = log.*1 ++ ((λ item, AddEntry (entry_of_item molecule_attributes item))
                   <$> items)
  | Raise e =>
      (∃ sent,
         (add_molecules remote items molecule_attributes log).1.*1
         = log.*1 ++ sent
         ∧ sent `prefix_of`
             ((λ item, AddEntry (entry_of_item molecule_attributes item))
              <$> items))
      ∧ ∃ c, last (add_molecules remote items molecule_attributes log).1
             = Some (c, Raise e)
  end.
Proof.
  revert log. induction items as [|[k q] items IH]; intros log; simpl.
  - by rewrite app_nil_r.
  - rewrite bind_rpc. destruct (remote log _) as [v|e] eqn:Hr; simpl.
    + specialize (IH (log ++ [(AddEntry (OptEntry k q
                   (default ∅ (get k molecule_attributes))), Ok v)])).
      destruct (add_molecules remote items molecule_attributes _)
        as [log' [[]|e]]; simpl in *.
      * rewrite IH, fmap_app, <-app_assoc. done.
      * destruct IH as [(sent & Hsent & Hpre) Hlast]. split; [|done].
        exists (AddEntry (entry_of_item molecule_attributes (k, q)) :: sent).
        split; [|by apply prefix_cons].
        rewrite Hsent, fmap_app, <-app_assoc. done.
    + split.
      * exists [AddEntry (entry_of_item molecule_attributes (k, q))].
        split; [by rewrite fmap_app|apply prefix_cons, prefix_nil].
      * eexists. apply last_snoc.
Qed.

(** The calls of a whole run, by the way it ends. *)
Lemma create_optimization_dataset_run (molecules_dict : dict Molecule)
    (client_config_file dataset_name qm_method qm_basis spec_name : string)
    (molecule_attributes : dict attribute_map) (start_compute : bool) :
  let run := create_optimization_dataset remote molecules_dict
               client_config_file dataset_name qm_method qm_basis spec_name
               molecule_attributes start_compute [] in
  let calls := expected_calls molecules_dict client_config_file dataset_name
                 qm_method qm_basis spec_name molecule_attributes
                 start_compute in
  match run.2 with
  | Ok _ => run.1.*1 = calls
  | Raise e => run.1.*1 `prefix_of` calls ∧ ∃ c, last run.1 = Some (c, Raise e)
  end.
Proof.
  unfold create_optimization_dataset, expected_calls. cbv zeta.
  rewrite bind_rpc. destruct (remote _ _) as [v1|e1]; simpl.
  2:{ split; [apply prefix_cons, prefix_nil|by eexists]. }
  rewrite bind_rpc. destruct (remote _ _) as [v2|e2]; simpl.
  2:{ split; [do 2 apply prefix_cons; apply prefix_nil|by eexists]. }
  rewrite bind_rpc. destruct (remote _ _) as [v3|e3]; simpl.
  2:{ split; [do 3 apply prefix_cons; apply prefix_nil|by eexists]. }
  rewrite bind_run.
  match goal with
  | |- context [add_molecules remote ?items ?ma ?log] =>
      pose proof (add_molecules_calls items ma log) as Hloop;
      destruct (add_molecules remote items ma log) as [log' [[]|e]]
  end; simpl in *.
  - destruct start_compute.
    + rewrite bind_rpc. destruct (remote log' _) as [v|e]; simpl.
      * by rewrite fmap_app, Hloop.
      * split; [|eexists; apply last_snoc].
        rewrite fmap_app, Hloop. simpl. done.
    + simpl. by rewrite Hloop, app_nil_r.
  - destruct Hloop as [(sent & -> & Hpre) Hlast]. split; [|done].
    do 3 apply prefix_cons. by apply prefix_app_r.
Qed.

(** X7.  [create_optimization_dataset] calls the service in one fixed order:
    the client, the new dataset, the specification, one [add_entry] per item
    of [molecules_dict] in its order, and [compute] last, only when
    [start_compute] is set.  A run that returns has made exactly these
    calls; a run that raises has made a first part of them, and raises what
    its last call raised. *)
Theorem create_optimization_dataset_calls (molecules_dict : dict Molecule)
    (client_config_file dataset_name qm_method qm_basis spec_name : string)
    (molecule_attributes : dict attribute_map) (start_compute : bool) :
  let run := create_optimization_dataset remote molecules_dict
               client_config_file dataset_name qm_method qm_basis spec_name
               molecule_attributes start_compute [] in
  let calls := expected_calls molecules_dict client_config_file dataset_name
                 qm_method qm_basis spec_name molecule_attributes
                 start_compute in
  run.1.*1 `prefix_of` calls
  ∧ (run.2 = Ok () → run.1.*1 = calls)
  ∧ (∀ e, run.2 = Raise e → ∃ c, last run.1 = Some (c, Raise e)).
Proof.
  cbv zeta.
  pose proof (create_optimization_dataset_run molecules_dict
                client_config_file dataset_name qm_method qm_basis spec_name
                molecule_attributes start_compute) as Hrun.
  cbv zeta in Hrun.
  destruct (create_optimization_dataset remote molecules_dict
              client_config_file dataset_name qm_method qm_basis spec_name
              molecule_attributes start_compute []) as [log [[]|e]];
    simpl in *.
  - rewrite Hrun. split_and!; [done|done|by intros e [=]].
  - destruct Hrun as [Hpre Hlast]. split_and!; [done|done|].
    by intros e' [= <-].
Qed.

(** X8.  Every entry that [create_optimization_dataset] hands to
    [add_entry] is an item of [molecules_dict], with the attributes stored
    under its name in [molecule_attributes], or with no attribute when the
    name is not a key there (the default of [dict.get]). *)
Theorem add_entry_attributes_default (molecules_dict : dict Molecule)
    (client_config_file dataset_name qm_method qm_basis spec_name : string)
    (molecule_attributes : dict attribute_map) (start_compute : bool) :
  Forall (λ e,
            (entry_name e, entry_molecule e) ∈ molecules_dict
            ∧ (∀ attributes,
                 get (entry_name e) molecule_attributes = Some attributes →
                 entry_attributes e = attributes)
            ∧ (entry_name e ∉ keys molecule_attributes →
               entry_attributes e = ∅))
    (added_entries
       (create_optimization_dataset remote molecules_dict client_config_file
          dataset_name qm_method qm_basis spec_name molecule_attributes
          start_compute []).1).
Proof.
  destruct (create_optimization_dataset_log remote molecules_dict
              client_config_file dataset_name qm_method qm_basis spec_name
              molecule_attributes start_compute) as [[more Hpre] _].
  assert (Forall (λ e : opt_entry Molecule,
            (entry_name e, entry_molecule e) ∈ molecules_dict
            ∧ (∀ attributes,
                 get (entry_name e) molecule_attributes = Some attributes →
                 entry_attributes e = attributes)
            ∧ (entry_name e ∉ keys molecule_attributes →
               entry_attributes e = ∅))
            (entry_of_item molecule_attributes <$> molecules_dict)) as Hall.
  { apply Forall_fmap, Forall_forall. intros [k q] Hin. simpl. split_and!.
    - done.
    - by intros attributes ->.
    - intros Hk. by rewrite (get_absent _ _ Hk). }
  rewrite Hpre in Hall. by apply Forall_app in Hall as [? _].
Qed.

End Submitter.

Section Main.
Context {mol_data Molecule E : Type}.
Variable from_data : mol_data → result E Molecule.
Variable remote : service (opt_entry Molecule).

(** X9.  [main] calls the service only after [read_molecules] has returned:
    the log of a run is empty exactly when [read_molecules] raised, and it
    then ends with that exception; otherwise its first call is the creation
    of the client from the configuration file. *)
Theorem main_calls_after_indexing (l : list (mdata mol_data))
    (dataset_name client_config qm_method qm_basis : string) (start : bool) :
  let run := main from_data remote l dataset_name client_config qm_method
               qm_basis start in
  (run.1 = [] ↔ ∃ e, read_molecules from_data l = Raise e)
  ∧ (∀ e, read_molecules from_data l = Raise e
          → run = ([], Raise (Indexing e)))
  ∧ (∀ md ma, read_molecules from_data l = Ok (md, ma)
              → ∃ r, run.1 !! 0 = Some (FromFile (Some client_config), r)).
Proof.
  cbv zeta. unfold main.
  destruct (read_molecules from_data l) as [[md ma]|e].
  - pose proof (create_optimization_dataset_run remote md client_config
                  dataset_name qm_method qm_basis "default" ma start)
      as Hcalls.
    cbv zeta in Hcalls.
    unfold expected_calls in Hcalls.
    destruct (create_optimization_dataset remote md client_config
                dataset_name qm_method qm_basis "default" ma start [])
      as [log [[]|e]]; simpl in *.
    + destruct log as [|[c r] log]; [done|]. simpl in Hcalls.
      injection Hcalls as -> _. split_and!.
      * split; [done|by intros [? ?]].
      * done.
      * intros ?? _. by eauto.
    + destruct Hcalls as [[more Hmore] [c' Hlast]].
      destruct log as [|[c r] log]; [done|]. simpl in Hmore.
      injection Hmore as <- _. split_and!.
      * split; [done|by intros [? ?]].
      * done.
      * intros ?? _. by eauto.
  - simpl. split_and!.
    + split; [by eauto|done].
    + by intros ? [= ->].
    + done.
Qed.

(** X10.  A run of [main] that returns has handed over every molecule of the
    input exactly once, in encounter order: the entry at position [p] has
    the key of the encounter at [p], the molecule the toolkit built from it
    and the [cmiles_identifiers] of its record. *)
Theorem main_adds_every_molecule (l : list (mdata mol_data))
    (dataset_name client_config qm_method qm_basis : string) (start : bool)
    (log : list (event (opt_entry Molecule))) :
  main from_data remote l dataset_name client_config qm_method qm_basis start
  = (log, Ok ()) →
  length (added_entries log) = length (encounters l)
  ∧ ∀ p b cmiles_ids m,
      encounters l !! p = Some (b, cmiles_ids, m) →
      ∃ q, from_data m = Ok q
           ∧ added_entries log !! p
             = Some (OptEntry (nth_key (encounters l).*1.*1 p b) q cmiles_ids).
Proof.
  unfold main. pose proof (read_molecules_spec from_data l) as Hspec.
  destruct (read_molecules from_data l) as [[md ma]|e]; [|done].
  destruct Hspec as (qs & Hqs & Hmd & Hma & _).
  pose proof (create_optimization_dataset_run remote md client_config
                dataset_name qm_method qm_basis "default" ma start) as Hcalls.
  cbv zeta in Hcalls.
  destruct (create_optimization_dataset remote md client_config
              dataset_name qm_method qm_basis "default" ma start [])
    as [log' [[]|e]]; simpl in *; [|done].
  intros [= ->].
  assert (added_entries log = entry_of_item ma <$> md) as Hentries.
  { rewrite added_entries_calls, Hcalls. unfold expected_calls.
    rewrite !omap_app, omap_add_entry. simpl.
    destruct start; simpl; by rewrite app_nil_r. }
  rewrite Hentries, length_fmap. split.
  - rewrite Hmd, length_zip_with, length_expected_keys, !length_fmap.
    rewrite <-(Forall2_length _ _ _ Hqs). lia.
  - intros p b cm m Hp.
    destruct (Forall2_lookup_l _ _ _ _ _ Hqs Hp) as (q & Hq & Hm).
    assert ((encounters l).*1.*1 !! p = Some b) as Hb
      by by rewrite !list_lookup_fmap, Hp.
    exists q. split; [done|].
    rewrite list_lookup_fmap, Hmd.
    rewrite (proj2 (lookup_zip_with_Some _ _ _ _ _)
               (ex_intro _ _ (ex_intro _ _
                  (conj eq_refl (conj (lookup_expected_keys _ _ _ Hb) Hq))))).
    simpl. unfold entry_of_item. simpl. f_equal. f_equal.
    rewrite Hma.
    erewrite get_zip_lookup;
      [done|apply NoDup_expected_keys|by apply lookup_expected_keys|].
    by rewrite !list_lookup_fmap, Hp.
Qed.

End Main.

End SubmitterProperties.

(** * Further properties of the torsion script *)

Module TorsionProperties.
Import Remote RemoteFacts Torsion TorsionFacts.

(** What [json.load] returned, as far as the script tells values apart. *)
Inductive loaded (mol_data : Type) : Type :=
  | NoLength                 (* a number, [true], [false] or [null] *)
  | NoItems (length : nat)   (* a string or a list *)
  | Mapping (items : list (string * torsion_data mol_data)).
Arguments NoLength {mol_data}.
Arguments NoItems {mol_data} length.
Arguments Mapping {mol_data} items.

(** What the whole script can end with. *)
Inductive script_error (E : Type) : Type :=
  | Loading (e : load_error)
  | LenTypeError          (* TypeError at [len(selected_torsions)], line 42 *)
  | ItemsAttributeError   (* AttributeError at [selected_torsions.items()] *)
  | Submitting (e : torsion_error E).
Arguments Loading {E} e.
Arguments LenTypeError {E}.
Arguments ItemsAttributeError {E}.
Arguments Submitting {E} e.

(** The script from its first line to its last: the loader, the
    [len(selected_torsions)] of line 42, the preparation of the dataset, the
    [len] of line 93 and [selected_torsions.items()], the loop and the last
    two calls. *)
Definition torsion_script {mol_data Molecule Geometry E : Type}
    `{!Toolkit mol_data Molecule Geometry E}
    (json_load : string → option (loaded mol_data))
    (remote : service (td_entry mol_data)) (fs : filesystem)
    : list (event (td_entry mol_data)) * result (script_error E) json :=
  match (load_selected_torsions json_load fs).2 with
  | Raise e => ([], Raise (Loading e))
  | Ok NoLength => ([], Raise LenTypeError)
  | Ok (NoItems _) =>
      match initialize_dataset remote [] with
      | (log, Ok _) => (log, Raise ItemsAttributeError)
      | (log, Raise e) => (log, Raise (Submitting e))
      end
  | Ok (Mapping selected_torsions) =>
      match submit_torsions remote selected_torsions [] with
      | (log, Ok comp) => (log, Ok comp)
      | (log, Raise e) => (log, Raise (Submitting e))
      end
  end.

(** A service that registers keyword sets without returning an id. *)
Definition no_keyword_ids {Entry} : service Entry := λ _ c,
  match c with
  | AddKeywords _ => Ok (JList [])
  | _ => Ok JNull
  end.

(** ** The loader *)

Section Loader.
Context {Torsions : Type}.
Variable json_load : string → option Torsions.

(** The outcome of the loader when the JSON path holds a text. *)
Lemma load_selected_torsions_present (fs : filesystem) (text : string) :
  fs !! "coverage_selected_torsions.json"%string = Some (Plain text) →
  load_selected_torsions json_load fs
  = (fs, match json_load text with
         | Some selected_torsions => Ok selected_torsions
         | None => Raise JSONDecodeError
         end).
Proof.
  intros Hf. unfold load_selected_torsions, path_exists.
  rewrite bool_decide_eq_true_2 by by rewrite Hf.
  unfold read_selected_torsions, open_text. by rewrite Hf.
Qed.

Lemma load_selected_torsions_absent (fs : filesystem) :
  fs !! "coverage_selected_torsions.json"%string = None →
  ∃ e, load_selected_torsions json_load fs = (fs, Raise e).
Proof.
  intros Hnone. unfold load_selected_torsions, path_exists.
  rewrite bool_decide_eq_false_2 by (rewrite Hnone; by intros [? ?]).
  destruct (tarfile_open fs _) as [f|e]; simpl; [|by eauto].
  destruct (extractfile f _) as [text|e]; simpl; [|by eauto].
  unfold read_selected_torsions, open_text. rewrite Hnone. by eauto.
Qed.

Lemma load_selected_torsions_archive (fs : filesystem)
    (members : gmap string string) :
  fs !! "coverage_selected_torsions.json"%string = Some (TarGz members) →
  load_selected_torsions json_load fs
  = (fs, Raise (UnicodeDecodeError "coverage_selected_torsions.json")).
Proof.
  intros Hf. unfold load_selected_torsions, path_exists.
  rewrite bool_decide_eq_true_2 by by rewrite Hf.
  unfold read_selected_torsions, open_text. by rewrite Hf.
Qed.

(** X11.  On a working directory whose JSON path is absent or holds a
    text, the loader returns a mapping exactly when the path holds a text
    that [json.load] parses, and the mapping is that parse; the archive
    plays no part, and the working directory is never changed. *)
Theorem loader_returns_iff (fs : filesystem) (selected_torsions : Torsions) :
  (∀ members, fs !! "coverage_selected_torsions.json"%string
              ≠ Some (TarGz members)) →
  (load_selected_torsions json_load fs).1 = fs
  ∧ ((load_selected_torsions json_load fs).2 = Ok selected_torsions
     ↔ ∃ text, fs !! "coverage_selected_torsions.json"%string
               = Some (Plain text)
               ∧ json_load text = Some selected_torsions).
Proof.
  intros Htext.
  destruct (fs !! "coverage_selected_torsions.json"%string)
    as [[text|members]|] eqn:Hf.
  - rewrite (load_selected_torsions_present fs text Hf). simpl.
    split; [done|].
    destruct (json_load text) as [v|] eqn:Hparse; split.
    + intros [= <-]. by exists text.
    + intros (text' & [= <-] & Hv). congruence.
    + done.
    + intros (text' & [= <-] & Hv). congruence.
  - by destruct (Htext members).
  - destruct (load_selected_torsions_absent fs Hf) as [e ->]. simpl.
    split; [done|]. split; [done|]. by intros (text & ? & _).
Qed.

End Loader.

(** ** The script *)

Section Script.
Context {mol_data Molecule Geometry E : Type}.
Context `{!Toolkit mol_data Molecule Geometry E}.
Variable remote : service (td_entry mol_data).

Implicit Types (td : torsion_data mol_data)
  (log : list (event (td_entry mol_data))).

(** The first call of the preparation is the creation of the client. *)
Lemma initialize_dataset_first_call log :
  (log ++ [(FromFile None, remote log (FromFile None))])
  `prefix_of` (initialize_dataset (E:=E) remote log).1.
Proof.
  unfold initialize_dataset, UPDATE. rewrite bind_rpc.
  destruct (remote log (FromFile None)) as [v1|e1]; simpl; [|done].
  rewrite bind_rpc. destruct (remote _ _) as [v2|e2]; simpl;
    [|prefix_tail].
  rewrite bind_rpc. destruct (remote _ _) as [v3|e3]; simpl;
    [|prefix_tail].
  rewrite bind_run.
  destruct v3 as [| | | | |[|kw_id ?]|]; simpl; try prefix_tail.
  rewrite bind_rpc. destruct (remote _ _) as [v4|e4]; simpl; prefix_tail.
Qed.

Lemma submit_torsions_first_call items :
  [(FromFile None, remote [] (FromFile None))]
  `prefix_of` (submit_torsions remote items []).1.
Proof.
  unfold submit_torsions. rewrite bind_run.
  pose proof (initialize_dataset_first_call []) as Hinit. simpl in Hinit.
  destruct (initialize_dataset remote []) as [log0 [[]|e]]; simpl in *;
    [|done].
  rewrite bind_run. pose proof (add_torsions_extends remote items 0 log0).
  destruct (add_torsions remote items 0 log0) as [log1 [i1|e]]; simpl in *.
  - pose proof (finish_extends (E:=E) remote log1). by repeat (etrans; [eassumption|]).
  - by etrans.
Qed.

(** X12.  The preparation of the dataset, when it succeeds, has made four
    calls in this order: the client, the new dataset under the name of the
    collection, the keyword set, and the specification ["default"] whose
    quantum-chemistry part refers to the first id that the keyword
    registration returned. *)
Theorem initialize_dataset_calls log :
  (initialize_dataset (E:=E) remote log).2 = Ok () →
  ∃ v1 v2 kw_id more_ids v4,
    (initialize_dataset (E:=E) remote log).1
    = log ++ [ (FromFile None, Ok v1);
               (NewDataset TorsionDriveDataset collection_name, Ok v2);
               (AddKeywords [kw], Ok (JList (kw_id :: more_ids)));
               (AddSpecification "default" opt_spec (qc_spec kw_id)
                  (Some "Standard OpenFF torsiondrive specification."%string),
                Ok v4) ].
Proof.
  unfold initialize_dataset, UPDATE. rewrite bind_rpc.
  destruct (remote log (FromFile None)) as [v1|e1]; simpl; [|done].
  rewrite bind_rpc. destruct (remote _ _) as [v2|e2]; simpl; [|done].
  rewrite bind_rpc. destruct (remote _ _) as [v3|e3]; simpl; [|done].
  rewrite bind_run.
  destruct v3 as [| | | | |[|kw_id more_ids]|]; simpl; try done.
  rewrite bind_rpc. destruct (remote _ _) as [v4|e4]; simpl; [|done].
  intros _. exists v1, v2, kw_id, more_ids, v4.
  by rewrite <-!app_assoc.
Qed.

(** X13.  When the keyword registration returns no id, the script stops
    there: the dataset has been created, but no specification is
    registered, no entry is added and nothing is saved. *)
Theorem submit_torsions_without_keyword_id items v1 v2 :
  remote [] (FromFile None) = Ok v1 →
  remote [(FromFile None, Ok v1)]
    (NewDataset TorsionDriveDataset collection_name) = Ok v2 →
  remote [ (FromFile None, Ok v1);
           (NewDataset TorsionDriveDataset collection_name, Ok v2) ]
    (AddKeywords [kw]) = Ok (JList []) →
  submit_torsions remote items []
  = ([ (FromFile None, Ok v1);
       (NewDataset TorsionDriveDataset collection_name, Ok v2);
       (AddKeywords [kw], Ok (JList [])) ],
     Raise BadKeywordsId).
Proof.
  intros H1 H2 H3. unfold submit_torsions. rewrite bind_run.
  unfold initialize_dataset, UPDATE.
  rewrite bind_rpc, H1. simpl. rewrite bind_rpc, H2. simpl.
  rewrite bind_rpc.
  match goal with
  | |- context [remote ?log (AddKeywords ?sets)] =>
      change (remote log (AddKeywords sets))
        with (remote [ (FromFile None, Ok v1);
                       (NewDataset TorsionDriveDataset collection_name, Ok v2) ]
                (AddKeywords [kw]))
  end.
  rewrite H3. by rewrite bind_run.
Qed.

(** The last two calls, when both succeed. *)
Lemma finish_returns log log' comp :
  finish (E:=E) remote log = (log', Ok comp) →
  ∃ v, log' = log ++ [ (Save, Ok v);
                       (Compute "default" (Some "openff"%string), Ok comp) ].
Proof.
  unfold finish. rewrite bind_rpc.
  destruct (remote log Save) as [v|e]; simpl; [|done].
  rewrite bind_rpc. destruct (remote _ _) as [v'|e]; simpl; [|done].
  intros [= <- <-]. exists v. by rewrite <-app_assoc.
Qed.

(** X14.  A run of the script that returns has called [add_entry] once for
    every record of the mapping, in its order, and has ended with a [save]
    and the [compute] of ["default"] under the tag ["openff"]; what it
    returns is what [compute] answered. *)
Theorem submit_torsions_returns items log comp :
  submit_torsions remote items [] = (log, Ok comp) →
  added_entries log = (λ item, entry_of_torsion item.1 item.2) <$> items
  ∧ ∃ before v,
      log = before ++ [ (Save, Ok v);
                        (Compute "default" (Some "openff"%string), Ok comp) ].
Proof.
  intros Hrun. split.
  - destruct (submit_torsions_log remote items) as [_ Hok].
    rewrite Hrun in Hok. by destruct (Hok comp eq_refl) as [? _].
  - unfold submit_torsions in Hrun. rewrite bind_run in Hrun.
    destruct (initialize_dataset remote []) as [log0 [[]|e]]; [|done].
    rewrite bind_run in Hrun.
    destruct (add_torsions remote items 0 log0) as [log1 [i1|e]]; [|done].
    apply finish_returns in Hrun as [v ->]. by exists log1, v.
Qed.

(** X15.  A record without initial molecules, or whose first molecule the
    toolkit rejects, ends the run at once: nothing is called for it, and the
    records after it are not looked at. *)
Theorem add_torsions_first_molecule_unusable k td rest i log :
  match initial_molecules td with
  | [] =>
      add_torsions remote ((k, td) :: rest) i log
      = (log, Raise NoInitialMolecule)
  | first :: _ =>
      ∀ e, molecule_of_data first = Raise e →
           add_torsions remote ((k, td) :: rest) i log
           = (log, Raise (MoleculeRejected e))
  end.
Proof.
  destruct (initial_molecules td) as [|first others] eqn:Hmols.
  - simpl. rewrite bind_run.
    rewrite (add_torsion_check_fails remote k td i log NoInitialMolecule);
      [done|]. by rewrite Hmols.
  - intros e He. simpl. rewrite bind_run.
    rewrite (add_torsion_check_fails remote k td i log (MoleculeRejected e));
      [done|]. rewrite Hmols. simpl. by rewrite He.
Qed.

(** X16.  The counter of the script counts the successful additions and
    nothing else: at the end of the loop it has grown by the number of
    [add_entry] calls that returned, refused duplicates left out. *)
Theorem add_torsions_counter items i log log' i' :
  add_torsions remote items i log = (log', Ok i') →
  i' + additions log = i + additions log'.
Proof.
  intros Hrun.
  destruct (add_torsions_log remote items i log)
    as (sent & n & _ & _ & _ & Hadd & Hok).
  rewrite Hrun in Hadd, Hok. simpl in *.
  destruct (Hok i' eq_refl) as [-> _]. lia.
Qed.

(** The marks of any run, however it ends. *)
Lemma submit_torsions_marks items :
  ∃ tail,
    marks (submit_torsions remote items []).1
    = save_pattern (additions (submit_torsions remote items []).1) ++ tail
    ∧ (tail = [] ∨ tail = [Saved]).
Proof.
  unfold submit_torsions. rewrite bind_run.
  destruct (initialize_dataset_log (E:=E) remote []) as (_ & Hmarks0 & Hadd0).
  destruct (initialize_dataset remote []) as [log0 [[]|e]]; simpl in *.
  2:{ exists []. rewrite Hmarks0, Hadd0. split; [done|by left]. }
  rewrite bind_run.
  destruct (add_torsions_log remote items 0 log0)
    as (sent & n & _ & _ & Hmarks & Hadd & _).
  destruct (add_torsions remote items 0 log0) as [log1 [i1|e]]; simpl in *.
  - destruct (finish_log (E:=E) remote log1) as (_ & -> & ->).
    exists [Saved]. rewrite Hmarks, Hmarks0, Hadd, Hadd0.
    split; [done|by right].
  - exists []. rewrite Hmarks, Hmarks0, Hadd, Hadd0, app_nil_r.
    split; [done|by left].
Qed.

(** X17.  However a run ends, fewer than 30 successful additions have not
    been followed by a [save] call: with [n] additions the run has called
    [save] at least [n / 30] times and at most once more. *)
Theorem unsaved_additions_below_30 items :
  let log := (submit_torsions remote items []).1 in
  additions log `div` 30 ≤ saves log ≤ additions log `div` 30 + 1
  ∧ additions log < 30 * (saves log + 1).
Proof.
  cbv zeta. destruct (submit_torsions_marks items) as (tail & Hmarks & Htail).
  assert (saves (submit_torsions remote items []).1
          = additions (submit_torsions remote items []).1 `div` 30
            + length tail) as Hsaves.
  { rewrite saves_marks, Hmarks, filter_app, length_app,
      saved_in_save_pattern.
    by destruct Htail as [-> | ->]. }
  pose proof (Nat.div_mod_eq
                (additions (submit_torsions remote items []).1) 30) as Hdiv.
  pose proof (Nat.mod_upper_bound
                (additions (submit_torsions remote items []).1) 30
                ltac:(lia)) as Hmod.
  assert (length tail ≤ 1) by (destruct Htail as [-> | ->]; simpl; lia).
  lia.
Qed.

End Script.

(** X18.  The script calls the service only after it has loaded and parsed
    its input and taken its length: the log of a run is empty exactly when
    the JSON path does not hold a text that [json.load] parses to a value
    with a length.  A text that parses to a number ends the run at line 42,
    before the client is created; a text that parses to a string or a list
    ends it at [selected_torsions.items()], after the dataset was prepared
    and before any entry is added. *)
Theorem torsion_script_calls_after_loading
    {mol_data Molecule Geometry E : Type}
    `{!Toolkit mol_data Molecule Geometry E}
    (json_load : string → option (loaded mol_data))
    (remote : service (td_entry mol_data)) (fs : filesystem) :
  ((torsion_script json_load remote fs).1 = []
   ↔ ¬ ∃ text selected_torsions,
         fs !! "coverage_selected_torsions.json"%string = Some (Plain text)
         ∧ json_load text = Some selected_torsions
         ∧ selected_torsions ≠ NoLength)
  ∧ (∀ text,
       fs !! "coverage_selected_torsions.json"%string = Some (Plain text) →
       json_load text = Some NoLength →
       torsion_script json_load remote fs = ([], Raise LenTypeError))
  ∧ (∀ text n,
       fs !! "coverage_selected_torsions.json"%string = Some (Plain text) →
       json_load text = Some (NoItems n) →
       added_entries (torsion_script json_load remote fs).1 = []
       ∧ ∀ comp, (torsion_script json_load remote fs).2 ≠ Ok comp).
Proof.
  unfold torsion_script.
  destruct (fs !! "coverage_selected_torsions.json"%string)
    as [[text|members]|] eqn:Hf.
  - rewrite (load_selected_torsions_present json_load fs text Hf). simpl.
    destruct (json_load text) as [[|n|items]|] eqn:Hparse.
    + split_and!.
      * split; [|done]. intros _ (text' & v & [= <-] & Hv & Hne). congruence.
      * done.
      * intros text' n [= <-]. congruence.
    + pose proof (initialize_dataset_first_call (E:=E) remote [])
        as [more Hlog].
      destruct (initialize_dataset_log (E:=E) remote []) as (Hent & _).
      destruct (initialize_dataset remote []) as [log [[]|e]];
        simpl in *; subst log.
      all: split_and!; [split; [done|intros []; by exists text, (NoItems n)]
                       |intros text' [= <-]; congruence
                       |intros text' n' _ _; by split].
    + pose proof (submit_torsions_first_call remote items) as [more Hlog].
      destruct (submit_torsions remote items []) as [log [comp|e]];
        simpl in *; subst log.
      all: split_and!; [split; [done|intros []; by exists text, (Mapping items)]
                       |intros text' [= <-]; congruence
                       |intros text' n' [= <-]; congruence].
    + split_and!.
      * split; [|done]. intros _ (text' & v & [= <-] & Hv & _). congruence.
      * intros text' [= <-]. congruence.
      * intros text' n [= <-]. congruence.
  - rewrite (load_selected_torsions_archive json_load fs members Hf). simpl.
    split_and!; [|done..]. split; [|done]. by intros _ (text & v & ? & _).
  - destruct (load_selected_torsions_absent json_load fs Hf) as [e ->].
    simpl. split_and!; [|done..].
    split; [|done]. by intros _ (text & v & ? & _).
Qed.

End TorsionProperties.

(** * The further properties on concrete runs *)

Module MoreRuns.
Import PyDict Remote Examples.

(** A record without identifier and without molecules. *)
Definition bare_record : Optimization.mdata string :=
  Optimization.Mdata [] ∅.

(** A record whose second conformer has no atoms. *)
Definition broken_record : Optimization.mdata string :=
  Optimization.Mdata ["ethanol d"; ""; "ethanol e"]%string cco_ids.

(** A working directory that holds the JSON file. *)
Definition json_present : Torsion.filesystem :=
  {[ "coverage_selected_torsions.json"%string := Torsion.Plain "{}" ]}.


(** X2 after the example input. *)
Lemma read_molecules_missing_identifier_witness :
  Optimization.read_molecules from_data (optimization_input ++ [bare_record])
  = Raise Optimization.MissingIdentifier.
Proof.
  apply (IndexerProperties.read_molecules_missing_identifier from_data
           optimization_input [] bare_record).
  - exact Runs.optimization_input_well_formed.
  - reflexivity.
Defined.

(** X3 after the example input. *)
Lemma read_molecules_first_rejected_witness :
  Optimization.read_molecules from_data
    (optimization_input ++ [broken_record; bare_record])
  = Raise (Optimization.FromDataError "no atoms"%string).
Proof.
  apply (IndexerProperties.read_molecules_first_rejected from_data
           optimization_input [bare_record] broken_record "CCO"
           ["ethanol d"%string] ["ethanol e"%string] ""%string).
  - exact Runs.optimization_input_well_formed.
  - reflexivity.
  - reflexivity.
  - repeat constructor. by eexists.
  - reflexivity.
Defined.

(** X4 on the third molecule of the example input. *)
Lemma read_molecules_lookup_witness :
  ∃ q, from_data "ethane" = Ok q
       ∧ get (Optimization.nth_key
                (Optimization.encounters optimization_input).*1.*1 2 "CC")
           indexed_molecules = Some q
       ∧ get (Optimization.nth_key
                (Optimization.encounters optimization_input).*1.*1 2 "CC")
           indexed_attributes = Some cc_ids.
Proof.
  apply (IndexerProperties.read_molecules_lookup from_data optimization_input).
  - vm_compute. reflexivity.
  - vm_compute. reflexivity.
Defined.

(** X5 on the example input: four molecules in three records. *)
Lemma read_molecules_size_witness :
  length indexed_molecules
  = sum_list_with (λ r, length (Optimization.initial_molecules r))
      optimization_input
  ∧ length indexed_attributes
    = sum_list_with (λ r, length (Optimization.initial_molecules r))
        optimization_input.
Proof.
  apply (IndexerProperties.read_molecules_size from_data optimization_input).
  vm_compute. reflexivity.
Defined.


(** X7 on the example dictionaries, with a service that accepts
    everything. *)
Lemma create_optimization_dataset_calls_witness :
  (Optimization.create_optimization_dataset accept_all indexed_molecules
     "client.yaml" "dataset" "b3lyp-d3bj" "dzvp" "default"
     indexed_attributes true []).1.*1
  = SubmitterProperties.expected_calls indexed_molecules "client.yaml"
      "dataset" "b3lyp-d3bj" "dzvp" "default" indexed_attributes true.
Proof.
  apply (proj1 (proj2 (SubmitterProperties.create_optimization_dataset_calls
                         accept_all indexed_molecules "client.yaml" "dataset"
                         "b3lyp-d3bj" "dzvp" "default" indexed_attributes
                         true))).
  reflexivity.
Defined.

(** X9 on the example input followed by a record without identifier. *)
Lemma main_calls_after_indexing_witness :
  Optimization.main from_data accept_all (optimization_input ++ [bare_record])
    "dataset" "client.yaml" "b3lyp-d3bj" "dzvp" true
  = ([], Raise (Optimization.Indexing Optimization.MissingIdentifier)).
Proof.
  apply (proj1 (proj2 (SubmitterProperties.main_calls_after_indexing
                         from_data accept_all
                         (optimization_input ++ [bare_record])
                         "dataset" "client.yaml" "b3lyp-d3bj" "dzvp" true))).
  vm_compute. reflexivity.
Defined.

(** X10 on the example input. *)
Lemma main_adds_every_molecule_witness :
  let log := (Optimization.main from_data accept_all optimization_input
                "dataset" "client.yaml" "b3lyp-d3bj" "dzvp" true).1 in
  length (added_entries log)
  = length (Optimization.encounters optimization_input)
  ∧ ∀ p b cmiles_ids m,
      Optimization.encounters optimization_input !! p
      = Some (b, cmiles_ids, m) →
      ∃ q, from_data m = Ok q
           ∧ added_entries log !! p
             = Some (Optimization.OptEntry
                       (Optimization.nth_key
                          (Optimization.encounters optimization_input).*1.*1
                          p b)
                       q cmiles_ids).
Proof.
  apply (SubmitterProperties.main_adds_every_molecule from_data accept_all
           optimization_input "dataset" "client.yaml" "b3lyp-d3bj" "dzvp"
           true).
  vm_compute. reflexivity.
Defined.

(** X11 on a working directory with the JSON file. *)
Lemma loader_returns_iff_witness :
  (Torsion.load_selected_torsions (λ _ : string, Some ()) json_present).1
  = json_present
  ∧ ((Torsion.load_selected_torsions (λ _ : string, Some ()) json_present).2
     = Ok ()
     ↔ ∃ text, json_present !! "coverage_selected_torsions.json"%string
               = Some (Torsion.Plain text)
               ∧ (λ _ : string, Some ()) text = Some ()).
Proof.
  apply (TorsionProperties.loader_returns_iff (λ _ : string, Some ())
           json_present ()).
  intros members Hf. vm_compute in Hf. discriminate.
Defined.

(** X12 on a service that accepts everything. *)
Lemma initialize_dataset_calls_witness :
  ∃ v1 v2 kw_id more_ids v4,
    (Torsion.initialize_dataset (E:=string)
       (accept_all (Entry:=Torsion.td_entry atoms_and_bonds)) []).1
    = [] ++ [ (FromFile None, Ok v1);
              (NewDataset TorsionDriveDataset Torsion.collection_name, Ok v2);
              (AddKeywords [Torsion.kw], Ok (JList (kw_id :: more_ids)));
              (AddSpecification "default" Torsion.opt_spec
                 (Torsion.qc_spec kw_id)
                 (Some "Standard OpenFF torsiondrive specification."%string),
               Ok v4) ].
Proof.
  apply (TorsionProperties.initialize_dataset_calls (E:=string)
           (accept_all (Entry:=Torsion.td_entry atoms_and_bonds)) []).
  reflexivity.
Defined.

(** X13 on a service that returns no keyword id. *)
Lemma submit_torsions_without_keyword_id_witness :
  Torsion.submit_torsions TorsionProperties.no_keyword_ids
    [("rot_1"%string, rot_1)] []
  = ([ (FromFile None, Ok JNull);
       (NewDataset TorsionDriveDataset Torsion.collection_name, Ok JNull);
       (AddKeywords [Torsion.kw], Ok (JList [])) ],
     Raise Torsion.BadKeywordsId).
Proof.
  apply (TorsionProperties.submit_torsions_without_keyword_id
           (Toolkit0:=listed_bonds) TorsionProperties.no_keyword_ids
           [("rot_1"%string, rot_1)] JNull JNull); reflexivity.
Defined.

(** X14 on the single record [rot_1]. *)
Lemma submit_torsions_returns_witness :
  let log := (Torsion.submit_torsions accept_all
                [("rot_1"%string, rot_1)] []).1 in
  added_entries log
  = (λ item, Torsion.entry_of_torsion item.1 item.2)
    <$> [("rot_1"%string, rot_1)]
  ∧ ∃ before v,
      log = before ++ [ (Save, Ok v);
                        (Compute "default" (Some "openff"%string), Ok JNull) ].
Proof.
  apply (TorsionProperties.submit_torsions_returns (Toolkit0:=listed_bonds)
           accept_all [("rot_1"%string, rot_1)]).
  vm_compute. reflexivity.
Defined.

(** X16 on three records of which the service refuses the second. *)
Definition refuse_second {Entry} : service Entry := λ log c,
  match c with
  | AddEntry _ =>
      if decide (length (added_entries log) = 1)
      then Raise (KeyError "duplicate")
      else Ok JNull
  | _ => Ok JNull
  end.

Lemma add_torsions_counter_witness :
  let log' := (Torsion.add_torsions refuse_second
                 [("rot_1"%string, rot_1); ("rot_1"%string, rot_1);
                  ("rot_3"%string, rot_1)] 0 []).1 in
  2 + additions ([] : list (event (Torsion.td_entry atoms_and_bonds)))
  = 0 + additions log'.
Proof.
  apply (TorsionProperties.add_torsions_counter (Toolkit0:=listed_bonds)
           refuse_second
           [("rot_1"%string, rot_1); ("rot_1"%string, rot_1);
            ("rot_3"%string, rot_1)] 0 []).
  vm_compute. reflexivity.
Defined.

(** X18 on a working directory whose JSON file holds the number 5, with a
    parser that knows this one text. *)
Definition number_present : Torsion.filesystem :=
  {[ "coverage_selected_torsions.json"%string := Torsion.Plain "5" ]}.

Definition parse_number (text : string)
    : option (TorsionProperties.loaded atoms_and_bonds) :=
  if decide (text = "5"%string) then Some TorsionProperties.NoLength
  else None.

Lemma torsion_script_calls_after_loading_witness :
  TorsionProperties.torsion_script (E:=string) parse_number accept_all
    number_present
  = ([], Raise TorsionProperties.LenTypeError).
Proof.
  apply (proj1 (proj2 (TorsionProperties.torsion_script_calls_after_loading
                         (Toolkit0:=listed_bonds) parse_number accept_all
                         number_present)) "5"%string); reflexivity.
Defined.

End MoreRuns.
